(** * Feedback Pulse: the search agent, the heuristic scorer and the keyword
    inference engine, embedded from [search-agent.js], [data-cleaning.js] and
    [ai-agent.js].

    Strings.  A JavaScript string is a sequence of UTF-16 code units.  The
    embedding covers the strings whose code units are all below 256 (the
    Latin-1 range), which [string] (a list of 8-bit [ascii]) represents code
    unit for code unit.  On that range [toLowerCase], [trim], the regular
    expression classes [\s] and [\d] and [includes] are written out exactly.

    Numbers.  The integers the code handles (scores, limits, counts) are
    modelled in [Z]; a value that is not a number after coercion is [NaN];
    confidences are IEEE doubles ([float]). *)

From Stdlib Require Import ZArith String Ascii List Lia Bool DecimalString Floats.
Import ListNotations.

Set Warnings "-inexact-float".

Open Scope string_scope.
Open Scope Z_scope.

(* ================================================================== *)
(** ** JavaScript string primitives used by the three modules          *)
(* ================================================================== *)

Module Js.

Definition code (c : ascii) : nat := nat_of_ascii c.

Definition between (lo hi n : nat) : bool := (lo <=? n)%nat && (n <=? hi)%nat.

(** [String.prototype.toLowerCase] on one code unit below 256: A-Z and the
    Latin-1 capitals U+00C0-U+00DE (U+00D7, the multiplication sign, apart)
    move up by 32; every other code unit is kept. *)
Definition lowerChar (c : ascii) : ascii :=
  let n := code c in
  if between 65 90 n || (between 192 222 n && negb (n =? 215)%nat)
  then ascii_of_nat (n + 32)
  else c.

Fixpoint toLowerCase (s : string) : string :=
  match s with
  | EmptyString => EmptyString
  | String c r => String (lowerChar c) (toLowerCase r)
  end.

(** [s.includes(sub)]: [sub] occurs in [s] as a contiguous run. *)
Fixpoint includes (s sub : string) : bool :=
  prefix sub s ||
  match s with
  | EmptyString => false
  | String _ r => includes r sub
  end.

(** White space and line terminators below 256: TAB, LF, VT, FF, CR, SP and
    NBSP.  This is both what [trim] strips and what [\s] matches. *)
Definition isWhiteSpace (c : ascii) : bool :=
  let n := code c in
  between 9 13 n || (n =? 32)%nat || (n =? 160)%nat.

(** The class [\d]. *)
Definition isDigit (c : ascii) : bool := between 48 57 (code c).

Definition newline : ascii := "010"%char.

Definition isNewline (c : ascii) : bool := (code c =? 10)%nat.

Fixpoint trimStart (s : string) : string :=
  match s with
  | EmptyString => EmptyString
  | String c r => if isWhiteSpace c then trimStart r else s
  end.

Fixpoint trimEnd (s : string) : string :=
  match s with
  | EmptyString => EmptyString
  | String c r =>
      match trimEnd r with
      | EmptyString => if isWhiteSpace c then EmptyString else String c EmptyString
      | r' => String c r'
      end
  end.

Definition trim (s : string) : string := trimEnd (trimStart s).

(** [s.replace(/\s+/g, ' ')]: every maximal run of white space becomes one
    space.  [inRun] records that the previous code unit belonged to the run
    being replaced. *)
Fixpoint replaceWsRuns (inRun : bool) (s : string) : string :=
  match s with
  | EmptyString => EmptyString
  | String c r =>
      if isWhiteSpace c
      then (if inRun then replaceWsRuns true r
            else String " "%char (replaceWsRuns true r))
      else String c (replaceWsRuns false r)
  end.

Fixpoint repeatChar (c : ascii) (n : nat) : string :=
  match n with
  | O => EmptyString
  | S k => String c (repeatChar c k)
  end.

(** What a maximal run of [k] newlines becomes under [/\n{3,}/g -> '\n\n']:
    the greedy match takes the whole run when it has three or more. *)
Definition flushNewlines (k : nat) : string :=
  if (3 <=? k)%nat then repeatChar newline 2 else repeatChar newline k.

(** [s.replace(/\n{3,}/g, '\n\n')]; [k] counts the newlines of the run that
    is being read. *)
Fixpoint replaceNewlineRuns (k : nat) (s : string) : string :=
  match s with
  | EmptyString => flushNewlines k
  | String c r =>
      if isNewline c then replaceNewlineRuns (S k) r
      else flushNewlines k ++ String c (replaceNewlineRuns 0 r)
  end.

(** [s.slice(0, n)]. *)
Fixpoint sliceTo (n : nat) (s : string) : string :=
  match n, s with
  | S k, String c r => String c (sliceTo k r)
  | _, _ => EmptyString
  end.

(** The first match of [/(\d+)/]: the leftmost maximal run of digits. *)
Fixpoint takeDigits (s : string) : string :=
  match s with
  | EmptyString => EmptyString
  | String c r => if isDigit c then String c (takeDigits r) else EmptyString
  end.

Fixpoint matchDigits (s : string) : option string :=
  match s with
  | EmptyString => None
  | String c r => if isDigit c then Some (String c (takeDigits r)) else matchDigits r
  end.

Definition digitValue (c : ascii) : Z := Z.of_nat (code c) - 48.

(** [parseInt] on a string of decimal digits, read left to right.  The
    integer is exact here; [parseInt] rounds beyond 2^53, far above every
    bound the callers compare the result with. *)
Fixpoint parseDigits (acc : Z) (s : string) : Z :=
  match s with
  | EmptyString => acc
  | String c r => parseDigits (10 * acc + digitValue c) r
  end.

Definition parseInt (digits : string) : Z := parseDigits 0 digits.

(** Truthiness of a string-valued property that may be absent: [undefined],
    [null] and the empty string are falsy. *)
Definition truthy (o : option string) : bool :=
  match o with
  | Some s => negb (s =? "")%string
  | None => false
  end.

(** A number inside a template literal: the decimal numeral of an integer
    (JavaScript switches to exponent notation from 10^21 on). *)
Definition numberToString (z : Z) : string := NilZero.string_of_int (Z.to_int z).

(** [arr.join(sep)]. *)
Definition join (sep : string) (l : list string) : string := String.concat sep l.

(** [arr.filter(p).length]. *)
Definition countIf {A : Type} (p : A -> bool) (l : list A) : nat :=
  List.length (List.filter p l).

(** [s.split(sep)] for a non-empty separator.  [skip] counts the code units
    of a separator that has just been matched and is still to be passed. *)
Fixpoint splitAux (sep : string) (skip : nat) (s : string) : list string :=
  match s with
  | EmptyString => [EmptyString]
  | String c r =>
      match skip with
      | S k => splitAux sep k r
      | O =>
          if prefix sep s
          then EmptyString :: splitAux sep (String.length sep - 1) r
          else match splitAux sep 0 r with
               | piece :: pieces => String c piece :: pieces
               | [] => [String c EmptyString]
               end
      end
  end.

Fixpoint codeUnits (s : string) : list string :=
  match s with
  | EmptyString => []
  | String c r => String c EmptyString :: codeUnits r
  end.

(** [s.split(sep)]: with the empty separator, one piece per code unit. *)
Definition split (sep s : string) : list string :=
  if (sep =? "")%string then codeUnits s else splitAux sep 0 s.

(** [arr.includes(x)] on an array of strings. *)
Definition arrayIncludes (l : list string) (x : string) : bool :=
  existsb (String.eqb x) l.

End Js.

(* ================================================================== *)
(** ** search-agent.js                                                 *)
(* ================================================================== *)

Module SearchAgent.
Import Js.

(** The intent object.  A property holding [null] or [undefined] is [None];
    [limit] is an integer when present. *)
Record QueryIntent : Type := mkIntent {
  urgency : option (list string);
  sentiment : option (list string);
  product : option string;
  theme : option string;
  customerTier : option string;
  sortBy : option string;
  limit : option Z
}.

(** The template literal that opens [generateSQL], line by line. *)
Definition sqlSelect : string :=
  join (String newline "")
    [ "";
      "      SELECT ";
      "        fm.feedback_id,";
      "        fm.original_id,";
      "        fm.feedback_text,";
      "        fm.created_date,";
      "        fm.urgency_score,";
      "        fm.value_score,";
      "        u.email,";
      "        u.username,";
      "        u.customer_tier,";
      "        pa.product_name,";
      "        s.source_name,";
      "        sa.sentiment,";
      "        sa.urgency,";
      "        sa.ai_summary,";
      "        GROUP_CONCAT(t.theme_name) as themes";
      "      FROM feedback_master fm";
      "      LEFT JOIN users u ON fm.user_id = u.user_id";
      "      LEFT JOIN product_areas pa ON fm.product_area_id = pa.product_area_id";
      "      LEFT JOIN sources s ON fm.source_id = s.source_id";
      "      LEFT JOIN sentiment_analysis sa ON fm.feedback_id = sa.feedback_id";
      "      LEFT JOIN feedback_themes ft ON fm.feedback_id = ft.feedback_id";
      "      LEFT JOIN themes t ON ft.theme_id = t.theme_id";
      "      WHERE 1=1";
      "    " ].

(** [values.map(() => '?').join(',')]. *)
Definition placeholders (values : list string) : string :=
  join "," (map (fun _ => "?") values).

(** The two arrays [generateSQL] pushes to. *)
Definition Acc : Type := (list string * list string)%type.

Definition push (a : Acc) (condition : string) (values : list string) : Acc :=
  ((fst a ++ [condition])%list, (snd a ++ values)%list).

Definition addList (column : string) (filter : option (list string)) (a : Acc) : Acc :=
  match filter with
  | Some values =>
      if (0 <? length values)%nat
      then push a (column ++ " IN (" ++ placeholders values ++ ")") values
      else a
  | None => a
  end.

Definition addOne (condition : string) (wrap : string -> string)
  (filter : option string) (a : Acc) : Acc :=
  match filter with
  | Some v => if truthy filter then push a condition [wrap v] else a
  | None => a
  end.

(** [const sortBy = intent.sortBy || 'urgency_score']. *)
Definition sortByOrDefault (intent : QueryIntent) : string :=
  match sortBy intent with
  | Some s => if truthy (sortBy intent) then s else "urgency_score"
  | None => "urgency_score"
  end.

(** [const limit = intent.limit || 20]. *)
Definition limitOrDefault (intent : QueryIntent) : Z :=
  match limit intent with
  | Some n => if n =? 0 then 20 else n
  | None => 20
  end.

Definition generateSQL (intent : QueryIntent) : string * list string :=
  let sql := sqlSelect in
  let a : Acc := ([], []) in
  let a := addList "sa.urgency" (urgency intent) a in
  let a := addList "sa.sentiment" (sentiment intent) a in
  let a := addOne "pa.product_name = ?" (fun v => v) (product intent) a in
  let a := addOne "u.customer_tier = ?" (fun v => v) (customerTier intent) a in
  let a := addOne "t.theme_name LIKE ?" (fun v => "%" ++ v ++ "%") (theme intent) a in
  let (conditions, params) := a in
  let sql :=
    if (0 <? length conditions)%nat
    then sql ++ " AND " ++ join " AND " conditions
    else sql in
  let sql := sql ++ " GROUP BY fm.feedback_id" in
  let sortBy := sortByOrDefault intent in
  let sql := sql ++ " ORDER BY " ++ sortBy ++ " DESC, fm.created_date DESC" in
  let limit := limitOrDefault intent in
  let sql := sql ++ " LIMIT " ++ numberToString limit in
  (sql, params).

Definition parseIntentWithKeywords (userQuery : string) : QueryIntent :=
  let lowerQuery := toLowerCase userQuery in
  let isSimpleReviewQuery :=
    (includes lowerQuery "review" || includes lowerQuery "show me"
     || includes lowerQuery "list")
    && negb (includes lowerQuery "urgent")
    && negb (includes lowerQuery "critical")
    && negb (includes lowerQuery "negative")
    && negb (includes lowerQuery "positive") in
  let urgency :=
    if negb isSimpleReviewQuery then
      if includes lowerQuery "critical" || includes lowerQuery "urgent"
      then Some ["Critical"]
      else if includes lowerQuery "high priority" || includes lowerQuery "high"
              || includes lowerQuery "important"
      then Some ["Critical"; "High"]
      else None
    else None in
  let sentiment :=
    if negb isSimpleReviewQuery then
      if includes lowerQuery "negative" || includes lowerQuery "complaints"
         || includes lowerQuery "complaining"
      then Some ["Negative"; "Frustrated"]
      else if includes lowerQuery "positive" || includes lowerQuery "happy"
      then Some ["Positive"]
      else None
    else None in
  let customerTier :=
    if includes lowerQuery "enterprise" then Some "Enterprise"
    else if includes lowerQuery "pro" then Some "Pro"
    else if includes lowerQuery "free" then Some "Free"
    else None in
  let product :=
    if includes lowerQuery "workers ai" then Some "Workers AI"
    else if includes lowerQuery "workers" then Some "Workers"
    else if includes lowerQuery "d1" then Some "D1 Database"
    else if includes lowerQuery "workflow" then Some "Workflows"
    else if includes lowerQuery "r2" then Some "R2 Storage"
    else if includes lowerQuery "kv" then Some "KV Storage"
    else None in
  let limit :=
    match matchDigits lowerQuery with
    | Some digits =>
        let num := parseInt digits in
        if (0 <? num) && (num <=? 100) then num else 20
    | None => 20
    end in
  let limit :=
    if includes lowerQuery "list" || includes lowerQuery "show me"
       || includes lowerQuery "review"
    then 50 else limit in
  {| urgency := urgency;
     sentiment := sentiment;
     product := product;
     theme := None;
     customerTier := customerTier;
     sortBy := Some "urgency_score";
     limit := Some limit |}.

End SearchAgent.
(* ================================================================== *)
(** ** data-cleaning.js                                                *)
(* ================================================================== *)

Module DataCleaning.
Import Js.

(** A score while it is being computed.  [NaN] stands for every value whose
    numeric coercion is NaN: a function or object found on the prototype
    chain of the lookup table, and the string such a value turns into under
    [+=]. *)
Inductive Score : Type :=
| Num (z : Z)
| NaN.

(** The names every object literal inherits from [Object.prototype]; under
    each of them a property read finds a function (an object for
    [__proto__]), which is truthy. *)
Definition objectPrototypeKeys : list string :=
  [ "constructor"; "hasOwnProperty"; "isPrototypeOf"; "propertyIsEnumerable";
    "toLocaleString"; "toString"; "valueOf"; "__proto__";
    "__defineGetter__"; "__defineSetter__"; "__lookupGetter__";
    "__lookupSetter__" ].

(** What [urgencyScores[urgency]] reads. *)
Inductive Property : Type :=
| Own (z : Z)
| Inherited
| Undefined.

Definition urgencyScores (key : string) : Property :=
  if (key =? "Critical")%string then Own 10
  else if (key =? "High")%string then Own 8
  else if (key =? "Medium")%string then Own 5
  else if (key =? "Low")%string then Own 3
  else if existsb (String.eqb key) objectPrototypeKeys then Inherited
  else Undefined.

(** [p || d] for a property read. *)
Definition orDefault (p : Property) (d : Z) : Score :=
  match p with
  | Own z => if z =? 0 then Num d else Num z
  | Inherited => NaN
  | Undefined => Num d
  end.

(** [score += k]. *)
Definition add (s : Score) (k : Z) : Score :=
  match s with
  | Num z => Num (z + k)
  | NaN => NaN
  end.

(** [Math.min(10, Math.max(1, score))]. *)
Definition clamp (s : Score) : Score :=
  match s with
  | Num z => Num (Z.min 10 (Z.max 1 z))
  | NaN => NaN
  end.

Definition calculateUrgencyScore (urgency feedbackText customerTier : string) : Score :=
  let score := orDefault (urgencyScores urgency) 5 in
  let text := toLowerCase feedbackText in
  let score := if includes text "urgent" || includes text "critical"
               then add score 2 else score in
  let score := if includes text "blocking" || includes text "can't"
               then add score 1 else score in
  let score := if includes text "production" || includes text "outage"
               then add score 2 else score in
  let score := if includes text "data loss" || includes text "security"
               then add score 2 else score in
  let score := if (customerTier =? "Enterprise")%string
               then add score 1 else score in
  clamp score.

Definition cleanText (text : string) : string :=
  if (text =? "")%string then ""
  else sliceTo 5000 (replaceNewlineRuns 0 (replaceWsRuns false (trim text))).

(** What [standardizeProductName] returns: [null], a string, or the value
    found under a name the lookup table inherits (a function or an object,
    which is truthy). *)
Inductive ProductValue : Type :=
| NoProduct
| ProductName (name : string)
| InheritedValue.

Definition productMap : list (string * string) :=
  [ ("workers", "Workers");
    ("workers ai", "Workers AI");
    ("workers-ai", "Workers AI");
    ("workersai", "Workers AI");
    ("d1", "D1 Database");
    ("d1 database", "D1 Database");
    ("d1-database", "D1 Database");
    ("workflows", "Workflows");
    ("workflow", "Workflows");
    ("r2", "R2 Storage");
    ("r2 storage", "R2 Storage");
    ("kv", "KV Storage");
    ("kv storage", "KV Storage");
    ("pages", "Pages");
    ("cloudflare pages", "Pages");
    ("billing", "Billing");
    ("api", "API");
    ("documentation", "Documentation");
    ("docs", "Documentation") ].

(** An own property of an object literal whose keys are all distinct. *)
Fixpoint ownProperty (key : string) (entries : list (string * string)) : option string :=
  match entries with
  | [] => None
  | (k, v) :: rest => if (key =? k)%string then Some v else ownProperty key rest
  end.

Definition standardizeProductName (productStr : option string) : ProductValue :=
  match productStr with
  | None => NoProduct
  | Some str =>
      if truthy productStr then
        let normalized := trim (toLowerCase str) in
        match ownProperty normalized productMap with
        | Some name => ProductName name
        | None =>
            if existsb (String.eqb normalized) objectPrototypeKeys
            then InheritedValue
            else ProductName (trim str)
        end
      else NoProduct
  end.

Definition standardizeUrgency (urgencyStr : option string) : string :=
  match urgencyStr with
  | None => "Medium"
  | Some str =>
      if truthy urgencyStr then
        let normalized := trim (toLowerCase str) in
        if includes normalized "critical" || includes normalized "urgent"
        then "Critical"
        else if (normalized =? "high")%string || includes normalized "blocking"
        then "High"
        else if (normalized =? "low")%string then "Low"
        else "Medium"
      else "Medium"
  end.

(** The engagement object.  Its numbers are IEEE doubles, as every
    JavaScript number is; a property that is absent takes the default of
    the destructuring pattern. *)
Record EngagementMetrics : Type := mkEngagement {
  likes : option float;
  upvotes : option float;
  comments : option float
}.

Definition noEngagement : EngagementMetrics := mkEngagement None None None.

Definition orZero (x : option float) : float :=
  match x with
  | Some n => n
  | None => 0%float
  end.

Definition tierScores (key : string) : Property :=
  if (key =? "Enterprise")%string then Own 9
  else if (key =? "Pro")%string then Own 7
  else if (key =? "Free")%string then Own 4
  else if existsb (String.eqb key) objectPrototypeKeys then Inherited
  else Undefined.

Definition calculateValueScore (customerTier feedbackText : string)
  (engagementMetrics : EngagementMetrics) : Score :=
  let score := orDefault (tierScores customerTier) 5 in
  let totalEngagement :=
    (orZero (likes engagementMetrics) + orZero (upvotes engagementMetrics) * 2
     + orZero (comments engagementMetrics))%float in
  let score := if (50 <? totalEngagement)%float then add score 2
               else if (20 <? totalEngagement)%float then add score 1
               else score in
  let text := toLowerCase feedbackText in
  let score := if includes text "revenue" || includes text "customer"
               then add score 1 else score in
  let score := if includes text "compliance" || includes text "security"
               then add score 1 else score in
  clamp score.

Definition standardizeTier (tierStr : option string) : string :=
  match tierStr with
  | None => "Free"
  | Some str =>
      if truthy tierStr then
        let normalized := trim (toLowerCase str) in
        if (normalized =? "enterprise")%string then "Enterprise"
        else if (normalized =? "pro")%string then "Pro"
        else "Free"
      else "Free"
  end.

(** [str.split(delimiter).map(s => s.trim()).filter(Boolean)]. *)
Definition parseDelimitedString (str : option string) (delimiter : string) : list string :=
  match str with
  | None => []
  | Some s =>
      if truthy str
      then filter (fun piece => negb (piece =? "")%string) (map trim (split delimiter s))
      else []
  end.

Definition inferProductFromText (text : string) : option string :=
  let lowerText := toLowerCase text in
  if includes lowerText "worker" && includes lowerText "ai" then Some "Workers AI"
  else if includes lowerText "worker" then Some "Workers"
  else if includes lowerText "d1" then Some "D1 Database"
  else if includes lowerText "workflow" then Some "Workflows"
  else if includes lowerText "r2" then Some "R2 Storage"
  else if includes lowerText "kv" then Some "KV Storage"
  else if includes lowerText "pages" then Some "Pages"
  else if includes lowerText "billing" || includes lowerText "cost" then Some "Billing"
  else if includes lowerText "document" || includes lowerText "docs"
  then Some "Documentation"
  else if includes lowerText "api" then Some "API"
  else None.

Definition inferUrgencyFromText (text : string) : string :=
  let lowerText := toLowerCase text in
  if includes lowerText "urgent" || includes lowerText "critical"
     || includes lowerText "!!!" || includes lowerText "outage"
     || includes lowerText "production down"
  then "Critical"
  else if includes lowerText "blocking" || includes lowerText "can't"
          || includes lowerText "broken" || includes lowerText "failing"
  then "High"
  else if includes lowerText "nice to have" || includes lowerText "suggestion"
  then "Low"
  else "Medium".

(** [if (product)]: [null] and the empty string are falsy. *)
Definition productTruthy (p : ProductValue) : bool :=
  match p with
  | NoProduct => false
  | ProductName name => negb (name =? "")%string
  | InheritedValue => true
  end.

Fixpoint inferProductFromLabels (labels : list string) : ProductValue :=
  match labels with
  | [] => NoProduct
  | label :: rest =>
      let product := standardizeProductName (Some label) in
      if productTruthy product then product else inferProductFromLabels rest
  end.

Definition inferUrgencyFromLabels (labels : list string) : string :=
  let lowerLabels := map toLowerCase labels in
  if arrayIncludes lowerLabels "critical" || arrayIncludes lowerLabels "urgent"
  then "Critical"
  else if arrayIncludes lowerLabels "high" || arrayIncludes lowerLabels "bug"
  then "High"
  else if arrayIncludes lowerLabels "enhancement"
          || arrayIncludes lowerLabels "feature-request"
  then "Low"
  else "Medium".

Fixpoint inferProductFromTags (tags : list string) : ProductValue :=
  match tags with
  | [] => NoProduct
  | tag :: rest =>
      let product := standardizeProductName (Some tag) in
      if productTruthy product then product else inferProductFromTags rest
  end.

(** [category === '...']: an absent category equals none of the names. *)
Definition inferUrgencyFromCategory (category : option string) : string :=
  match category with
  | Some c =>
      if (c =? "Bug Reports")%string then "High"
      else if (c =? "Help & Support")%string then "Medium"
      else if (c =? "Feature Requests")%string then "Low"
      else "Medium"
  | None => "Medium"
  end.

Definition enterpriseDomains : list string :=
  ["enterprise"; "bigco"; "corp"; "finance"; "techcorp"].

Definition proDomains : list string := ["startup"; "io"; "tech"; "dev"].

(** [domain?.includes(d)]: falsy when [domain] is [undefined]. *)
Definition optIncludes (domain : option string) (d : string) : bool :=
  match domain with
  | Some s => includes s d
  | None => false
  end.

Definition inferTierFromEmail (email : option string) : string :=
  match email with
  | None => "Free"
  | Some address =>
      if truthy email then
        let domain := option_map toLowerCase (nth_error (split "@" address) 1) in
        if existsb (optIncludes domain) enterpriseDomains then "Enterprise"
        else if existsb (optIncludes domain) proDomains then "Pro"
        else "Free"
      else "Free"
  end.

Definition inferTierFromAuthor (author : option string) : string :=
  match author with
  | None => "Free"
  | Some name =>
      if truthy author then
        if includes name "enterprise" || includes name "corp" then "Enterprise"
        else if includes name "pro" || includes name "team" then "Pro"
        else "Free"
      else "Free"
  end.

End DataCleaning.

(* ================================================================== *)
(** ** ai-agent.js                                                     *)
(* ================================================================== *)

Module AiAgent.
Import Js.

Definition inferThemeFromKeywords (text : string) : string :=
  let lowerText := toLowerCase text in
  if includes lowerText "rate limit" || includes lowerText "429"
  then "API Rate Limits"
  else if includes lowerText "documentation" || includes lowerText "docs"
          || includes lowerText "unclear"
  then "Documentation Quality"
  else if includes lowerText "slow" || includes lowerText "latency"
          || includes lowerText "performance"
  then "Performance Issues"
  else if includes lowerText "billing" || includes lowerText "cost"
          || includes lowerText "price"
  then "Billing Concerns"
  else if includes lowerText "websocket" || includes lowerText "ws"
  then "WebSocket Support"
  else if includes lowerText "cold start"
  then "Cold Start Latency"
  else if includes lowerText "typescript" || includes lowerText "types"
  then "TypeScript Support"
  else if includes lowerText "mobile" || includes lowerText "ios"
          || includes lowerText "android"
  then "Mobile SDK"
  else if includes lowerText "security" || includes lowerText "compliance"
          || includes lowerText "soc2"
  then "Security/Compliance"
  else if includes lowerText "love" || includes lowerText "great"
          || includes lowerText "amazing"
  then "Positive Feedback"
  else if includes lowerText "request" || includes lowerText "feature"
          || includes lowerText "please add"
  then "Feature Request"
  else "General Feedback".

Definition negativeWords : list string :=
  ["hate"; "terrible"; "broken"; "frustrated"; "angry"; "awful"; "worst";
   "unacceptable"].

Definition positiveWords : list string :=
  ["love"; "great"; "amazing"; "excellent"; "fantastic"; "perfect"; "wonderful"].

Definition frustratedWords : list string :=
  ["frustrated"; "annoying"; "confusing"; "difficult"; "struggling"].

Definition negativeCount (lowerText : string) : nat :=
  countIf (includes lowerText) negativeWords.

Definition positiveCount (lowerText : string) : nat :=
  countIf (includes lowerText) positiveWords.

Definition frustratedCount (lowerText : string) : nat :=
  countIf (includes lowerText) frustratedWords.

Definition inferSentiment (text : string) : string :=
  let lowerText := toLowerCase text in
  let negativeCount := negativeCount lowerText in
  let positiveCount := positiveCount lowerText in
  let frustratedCount := frustratedCount lowerText in
  if (0 <? frustratedCount)%nat
     || ((0 <? negativeCount)%nat && includes lowerText "but")
  then "Frustrated"
  else if (positiveCount <? negativeCount)%nat then "Negative"
  else if (negativeCount <? positiveCount)%nat then "Positive"
  else "Neutral".

Definition criticalWords : list string :=
  ["urgent"; "critical"; "production"; "outage"; "down"; "broken"; "data loss"].

Definition highWords : list string :=
  ["blocking"; "cant"; "failing"; "error"; "bug"].

Definition lowWords : list string :=
  ["nice to have"; "suggestion"; "would love"; "future"].

Definition inferUrgency (text : string) : string :=
  let lowerText := toLowerCase text in
  if existsb (includes lowerText) criticalWords || includes lowerText "!!!"
  then "Critical"
  else if existsb (includes lowerText) highWords then "High"
  else if existsb (includes lowerText) lowWords then "Low"
  else "Medium".

(** The object [analyzeFeedback] resolves to. *)
Record AnalysisResult : Type := mkAnalysis {
  themes : list string;
  sentiment : string;
  urgency : string;
  summary : string;
  valueScore : float;
  confidence : float
}.

Record ThemeResult : Type := mkThemes {
  t_themes : list string;
  t_confidence : float
}.

Record SentimentResult : Type := mkSentiment {
  s_sentiment : string;
  s_urgency : string;
  s_summary : string;
  s_valueScore : float;
  s_confidence : float
}.

Definition getFallbackAnalysis (feedbackText : string) : AnalysisResult :=
  {| themes := [inferThemeFromKeywords feedbackText];
     sentiment := inferSentiment feedbackText;
     urgency := inferUrgency feedbackText;
     summary := sliceTo 150 feedbackText ++ "...";
     valueScore := 5%float;
     confidence := 0.5%float |}.

Definition getFallbackSentimentAnalysis (feedbackText : string) : SentimentResult :=
  {| s_sentiment := inferSentiment feedbackText;
     s_urgency := inferUrgency feedbackText;
     s_summary := sliceTo 150 feedbackText ++ "...";
     s_valueScore := 5%float;
     s_confidence := 0.5%float |}.

(** How a call completes: with a value, or by throwing (for an async method:
    a fulfilled or a rejected promise). *)
Inductive Completion (A : Type) : Type :=
| Returned (a : A)
| Thrown (message : string).

Arguments Returned {A} a.
Arguments Thrown {A} message.

Definition bind {A B : Type} (c : Completion A) (k : A -> Completion B) : Completion B :=
  match c with
  | Returned a => k a
  | Thrown m => Thrown m
  end.

(** [try { c } catch (error) { handler }]. *)
Definition tryCatch {A : Type} (c : Completion A) (handler : string -> Completion A)
  : Completion A :=
  match c with
  | Returned a => Returned a
  | Thrown m => handler m
  end.

Notation "x <- c ;; k" := (bind c (fun x => k))
  (at level 61, c at next level, right associativity).

(** The optional second argument of [analyzeFeedback]. *)
Record Metadata : Type := mkMetadata {
  m_customerTier : option string;
  m_source : option string
}.

(** The two requests sent to the text-completion service.  The model, the
    system message, the temperature and the token limit are constants of
    each call site, and the prompt is a fixed template around these
    arguments. *)
Inductive AiRequest : Type :=
| ThemePrompt (feedbackText : string)
| SentimentPrompt (feedbackText : string) (metadata : Metadata).

(** The properties the callers read from a parsed response; an absent
    property is [None]. *)
Record Parsed : Type := mkParsed {
  p_themes : option (list string);
  p_sentiment : option string;
  p_urgency : option string;
  p_summary : option string;
  p_valueScore : option float;
  p_confidence : option float
}.

(** [x || d] for a number: 0 and NaN are falsy. *)
Definition numberOr (x : option float) (d : float) : float :=
  match x with
  | Some f => if PrimFloat.eqb f 0%float || PrimFloat.is_nan f then d else f
  | None => d
  end.

Definition stringOr (x : option string) (d : string) : string :=
  match x with
  | Some s => if truthy x then s else d
  | None => d
  end.

Section Agent.

(** The AI binding and the response reader.  [run] is [this.ai.run]; it may
    throw.  [parseAIResponse] never throws (its body is one [try] that
    returns the empty object on failure); it yields [None] when the JSON
    text is [null], on which a property read throws. *)
Variable AiResponse : Type.
Variable run : AiRequest -> Completion AiResponse.
Variable parseAIResponse : AiResponse -> option Parsed.

(** [const result = this.parseAIResponse(response)] followed by the first
    property read of [result]. *)
Definition readProperties (response : AiResponse) : Completion Parsed :=
  match parseAIResponse response with
  | Some result => Returned result
  | None => Thrown "TypeError: Cannot read properties of null"
  end.

Definition extractThemes (feedbackText : string) : Completion ThemeResult :=
  tryCatch
    (response <- run (ThemePrompt feedbackText) ;;
     result <- readProperties response ;;
     Returned
       {| t_themes := match p_themes result with
                      | Some l => l
                      | None => [inferThemeFromKeywords feedbackText]
                      end;
          t_confidence := numberOr (p_confidence result) 0.7%float |})
    (fun _ =>
       Returned
         {| t_themes := [inferThemeFromKeywords feedbackText];
            t_confidence := 0.5%float |}).

Definition analyzeSentimentAndUrgency (feedbackText : string) (metadata : Metadata)
  : Completion SentimentResult :=
  tryCatch
    (response <- run (SentimentPrompt feedbackText metadata) ;;
     result <- readProperties response ;;
     Returned
       {| s_sentiment := stringOr (p_sentiment result) (inferSentiment feedbackText);
          s_urgency := stringOr (p_urgency result) (inferUrgency feedbackText);
          s_summary := stringOr (p_summary result) (sliceTo 100 feedbackText ++ "...");
          s_valueScore := numberOr (p_valueScore result) 5%float;
          s_confidence := numberOr (p_confidence result) 0.7%float |})
    (fun _ => Returned (getFallbackSentimentAnalysis feedbackText)).

(** [Promise.all] over the two calls: fulfilled with both results, rejected
    as soon as one of them rejects. *)
Definition analyzeFeedback (feedbackText : string) (metadata : Metadata)
  : Completion AnalysisResult :=
  tryCatch
    (themes <- extractThemes feedbackText ;;
     sentimentAnalysis <- analyzeSentimentAndUrgency feedbackText metadata ;;
     Returned
       {| themes := t_themes themes;
          sentiment := s_sentiment sentimentAnalysis;
          urgency := s_urgency sentimentAnalysis;
          summary := s_summary sentimentAnalysis;
          valueScore := s_valueScore sentimentAnalysis;
          confidence :=
            ((t_confidence themes + s_confidence sentimentAnalysis) / 2)%float |})
    (fun _ => Returned (getFallbackAnalysis feedbackText)).

End Agent.

(** One element of the array given to [batchAnalyzeFeedback]. *)
Record FeedbackItem : Type := mkItem {
  feedback_text : string;
  customer_tier : option string;
  source : option string
}.

(** [Promise.all]: every value in order, or the first rejection. *)
Fixpoint promiseAll {A : Type} (l : list (Completion A)) : Completion (list A) :=
  match l with
  | [] => Returned []
  | c :: rest =>
      x <- c ;;
      xs <- promiseAll rest ;;
      Returned (x :: xs)
  end.

Section Batch.

Variable AiResponse : Type.
Variable run : AiRequest -> Completion AiResponse.
Variable parseAIResponse : AiResponse -> option Parsed.

Definition analyzeItem (item : FeedbackItem) : Completion AnalysisResult :=
  analyzeFeedback AiResponse run parseAIResponse (feedback_text item)
    {| m_customerTier := customer_tier item; m_source := source item |}.

(** The loop of [batchAnalyzeFeedback] from index [i] on: the results so
    far and the number of 100 ms pauses taken.  Each unit of [fuel] pays
    for one turn of the loop; [None] when the fuel runs out before the loop
    ends. *)
Fixpoint batchLoop (fuel : nat) (feedbackItems : list FeedbackItem) (batchSize : nat)
  (i : nat) (results : list AnalysisResult) (pauses : nat)
  : option (Completion (list AnalysisResult * nat)) :=
  if (i <? length feedbackItems)%nat then
    match fuel with
    | O => None
    | S fuel' =>
        let batch := firstn batchSize (skipn i feedbackItems) in
        match promiseAll (map analyzeItem batch) with
        | Thrown m => Some (Thrown m)
        | Returned batchResults =>
            let results := (results ++ batchResults)%list in
            let pauses := if (i + batchSize <? length feedbackItems)%nat
                          then S pauses else pauses in
            batchLoop fuel' feedbackItems batchSize (i + batchSize)%nat results pauses
        end
    end
  else Some (Returned (results, pauses)).

Definition batchAnalyzeFeedback (fuel : nat) (feedbackItems : list FeedbackItem)
  (batchSize : nat) : option (Completion (list AnalysisResult * nat)) :=
  batchLoop fuel feedbackItems batchSize 0 [] 0.

End Batch.

End AiAgent.

(* ================================================================== *)
(** ** The worker (index.js, the second half of data-cleaning.js)      *)
(* ================================================================== *)

Module Worker.
Import Js.

(** [url.searchParams.get]: the value of a parameter, [None] when the URL
    does not carry it. *)
Definition SearchParams : Type := string -> option string.

Definition addParam (params : SearchParams) (name condition : string)
  (a : list string * list string) : list string * list string :=
  match params name with
  | Some v =>
      if truthy (params name)
      then ((fst a ++ [condition])%list, (snd a ++ [v])%list)
      else a
  | None => a
  end.

(** [params.get('limit') || 20], as the template literal prints it. *)
Definition limitText (params : SearchParams) : string :=
  match params "limit" with
  | Some v => if truthy (params "limit") then v else numberToString 20
  | None => numberToString 20
  end.

(** The locals [query] and [bindings] of [handleGetFeedback] when the
    statement is prepared: the text, and the array the filter values have
    been pushed to. *)
Definition handleGetFeedbackQuery (params : SearchParams) : string * list string :=
  let limit := limitText params in
  let query := "SELECT * FROM v_feedback_full WHERE 1=1" in
  let a : list string * list string := ([], []) in
  let a := addParam params "source" "source_name = ?" a in
  let a := addParam params "urgency" "urgency = ?" a in
  let a := addParam params "sentiment" "sentiment = ?" a in
  let a := addParam params "product" "product_name = ?" a in
  let a := addParam params "tier" "customer_tier = ?" a in
  let (conditions, bindings) := a in
  let query :=
    if (0 <? length conditions)%nat
    then query ++ " AND " ++ join " AND " conditions
    else query in
  let query := query ++ " ORDER BY urgency_score DESC, created_date DESC LIMIT " ++ limit in
  (query, bindings).

Section Database.

(** The D1 binding, as [handleGetFeedback] uses it: [env.DB.prepare(text)]
    and [stmt.bind(...values)], which returns a statement. *)
Variable Statement : Type.
Variable prepare : string -> Statement.
Variable bind : Statement -> list string -> Statement.

(** [boundStmt]: the prepared statement after
    [bindings.reduce((s, binding) => s.bind(binding), stmt)], one call of
    [bind] with one value for each element of [bindings]. *)
Definition handleGetFeedbackStatement (params : SearchParams) : Statement :=
  let (query, bindings) := handleGetFeedbackQuery params in
  let stmt := prepare query in
  fold_left (fun s binding => bind s [binding]) bindings stmt.

End Database.

End Worker.
(* ================================================================== *)
(** ** Specification-side definitions                                  *)
(* ================================================================== *)

(** The statements below compare the code with these definitions, which
    follow the wording of the specification rather than the code. *)
Module Spec.
Import Js.

(** "contains list / show me / review". *)
Definition mentionsListing (lowerQuery : string) : bool :=
  includes lowerQuery "list" || includes lowerQuery "show me"
  || includes lowerQuery "review".

(** "none of urgent / critical / negative / positive". *)
Definition mentionsSeverity (lowerQuery : string) : bool :=
  includes lowerQuery "urgent" || includes lowerQuery "critical"
  || includes lowerQuery "negative" || includes lowerQuery "positive".

(** Tier detection: substring checks in the order enterprise, pro, free. *)
Definition tierRule (lowerQuery : string) : option string :=
  if includes lowerQuery "enterprise" then Some "Enterprise"
  else if includes lowerQuery "pro" then Some "Pro"
  else if includes lowerQuery "free" then Some "Free"
  else None.

(** Product detection: the compound "workers ai" before plain "workers". *)
Definition productRule (lowerQuery : string) : option string :=
  if includes lowerQuery "workers ai" then Some "Workers AI"
  else if includes lowerQuery "workers" then Some "Workers"
  else if includes lowerQuery "d1" then Some "D1 Database"
  else if includes lowerQuery "workflow" then Some "Workflows"
  else if includes lowerQuery "r2" then Some "R2 Storage"
  else if includes lowerQuery "kv" then Some "KV Storage"
  else None.

(** The integer a run of digits denotes lies in [1,100]. *)
Definition inLimitRange (n : Z) : bool := (1 <=? n) && (n <=? 100).

(** Limit resolution as the code orders it: the listing rule last. *)
Definition limitRule (lowerQuery : string) : Z :=
  if mentionsListing lowerQuery then 50
  else match matchDigits lowerQuery with
       | Some digits => if inLimitRange (parseInt digits) then parseInt digits else 20
       | None => 20
       end.

(** What of an intent the query text may depend on: how many values each
    multi-valued filter holds and which single-valued filters are present. *)
Record Shape : Type := mkShape {
  urgencyValues : nat;
  sentimentValues : nat;
  hasProduct : bool;
  hasCustomerTier : bool;
  hasTheme : bool
}.

Definition valuesOf (filter : option (list string)) : list string :=
  match filter with
  | Some l => l
  | None => []
  end.

Definition valueOf (filter : option string) : list string :=
  match filter with
  | Some v => if truthy filter then [v] else []
  | None => []
  end.

Definition shapeOf (intent : SearchAgent.QueryIntent) : Shape :=
  {| urgencyValues := length (valuesOf (SearchAgent.urgency intent));
     sentimentValues := length (valuesOf (SearchAgent.sentiment intent));
     hasProduct := truthy (SearchAgent.product intent);
     hasCustomerTier := truthy (SearchAgent.customerTier intent);
     hasTheme := truthy (SearchAgent.theme intent) |}.

(** [n] placeholders separated by commas. *)
Definition questionMarks (n : nat) : string := join "," (repeat "?" n).

Definition inClause (column : string) (n : nat) : list string :=
  if (0 <? n)%nat then [column ++ " IN (" ++ questionMarks n ++ ")"] else [].

Definition oneClause (condition : string) (present : bool) : list string :=
  if present then [condition] else [].

(** One clause per present filter, each made of column names and
    placeholders only. *)
Definition clauses (sh : Shape) : list string :=
  (inClause "sa.urgency" (urgencyValues sh)
   ++ inClause "sa.sentiment" (sentimentValues sh)
   ++ oneClause "pa.product_name = ?" (hasProduct sh)
   ++ oneClause "u.customer_tier = ?" (hasCustomerTier sh)
   ++ oneClause "t.theme_name LIKE ?" (hasTheme sh))%list.

(** "Conditions are joined with AND; absent filters contribute no clause." *)
Definition whereClause (sh : Shape) : string :=
  match clauses sh with
  | [] => ""
  | cs => " AND " ++ join " AND " cs
  end.

(** The values handed to the store, in the order of the filters; the theme
    is a LIKE pattern, so it is bound between two percent signs. *)
Definition boundValues (intent : SearchAgent.QueryIntent) : list string :=
  (valuesOf (SearchAgent.urgency intent)
   ++ valuesOf (SearchAgent.sentiment intent)
   ++ valueOf (SearchAgent.product intent)
   ++ valueOf (SearchAgent.customerTier intent)
   ++ map (fun v => ("%" ++ v ++ "%")%string) (valueOf (SearchAgent.theme intent)))%list.

(** The query text around the two interpolated values. *)
Definition queryText (sh : Shape) (sortKey : string) (limit : Z) : string :=
  SearchAgent.sqlSelect ++ whereClause sh
  ++ " GROUP BY fm.feedback_id"
  ++ " ORDER BY " ++ sortKey ++ " DESC, fm.created_date DESC"
  ++ " LIMIT " ++ numberToString limit.

(** The number of placeholders in a piece of query text. *)
Fixpoint countPlaceholders (s : string) : nat :=
  match s with
  | EmptyString => O
  | String c r => ((if Ascii.eqb c "?" then 1 else 0) + countPlaceholders r)%nat
  end.

(** Some code unit of [s] satisfies [p]. *)
Fixpoint anyChar (p : ascii -> bool) (s : string) : bool :=
  match s with
  | EmptyString => false
  | String c r => p c || anyChar p r
  end.

(** The base lookup of the urgency score. *)
Definition baseScore (urgency : string) : Z :=
  if (urgency =? "Critical")%string then 10
  else if (urgency =? "High")%string then 8
  else if (urgency =? "Medium")%string then 5
  else if (urgency =? "Low")%string then 3
  else 5.

Definition mentions (text a b : string) : bool :=
  includes text a || includes text b.

(** The additive adjustments: keyword sets, then the tier. *)
Definition keywordBoost (lowerText : string) : Z :=
  (if mentions lowerText "urgent" "critical" then 2 else 0)
  + (if mentions lowerText "blocking" "can't" then 1 else 0)
  + (if mentions lowerText "production" "outage" then 2 else 0)
  + (if mentions lowerText "data loss" "security" then 2 else 0).

Definition tierBoost (customerTier : string) : Z :=
  if (customerTier =? "Enterprise")%string then 1 else 0.

Definition clampScore (z : Z) : Z := Z.min 10 (Z.max 1 z).

Definition boolToNat (b : bool) : nat := if b then 1 else 0.

(** An intent without filters whose sort key and limit are given. *)
Definition sortedIntent (sortKey : string) (limit : Z) : SearchAgent.QueryIntent :=
  SearchAgent.mkIntent None None None None None (Some sortKey) (Some limit).

Definition noFilters : Shape := mkShape 0 0 false false false.

(** A title and a body as the GitHub, email and forum rows join them:
    [title + '\n\n' + body]. *)
Definition twoParagraphs (title body : string) : string :=
  title ++ String newline (String newline body).

(** The first code unit of [s] satisfies [p]. *)
Definition headIs (p : ascii -> bool) (s : string) : bool :=
  match s with
  | EmptyString => false
  | String c _ => p c
  end.

(** The last code unit of [s] satisfies [p]. *)
Fixpoint lastIs (p : ascii -> bool) (s : string) : bool :=
  match s with
  | EmptyString => false
  | String c EmptyString => p c
  | String _ r => lastIs p r
  end.

(** The only white space in [s] is the space character, and no two spaces
    are adjacent; [afterSpace] tells that [s] follows a space. *)
Fixpoint singleSpaced (afterSpace : bool) (s : string) : bool :=
  match s with
  | EmptyString => true
  | String c r =>
      if isWhiteSpace c
      then Ascii.eqb c " " && negb afterSpace && singleSpaced true r
      else singleSpaced false r
  end.

(** The four urgency categories and the four sentiments that the columns
    [urgency] and [sentiment] of [sentiment_analysis] accept, and the three
    tiers that [users.customer_tier] accepts (the CHECK constraints of the
    schema). *)
Definition urgencyCategories : list string := ["Critical"; "High"; "Medium"; "Low"].

Definition sentiments : list string := ["Positive"; "Neutral"; "Negative"; "Frustrated"].

Definition tiers : list string := ["Enterprise"; "Pro"; "Free"].

(** The rows the schema seeds into [product_areas] and [themes]. *)
Definition seededProducts : list string :=
  [ "Workers"; "Workers AI"; "D1 Database"; "Workflows"; "R2 Storage";
    "KV Storage"; "Pages"; "Billing"; "Documentation"; "API" ].

Definition seededThemes : list string :=
  [ "API Rate Limits"; "Documentation Quality"; "Performance Issues";
    "Billing Concerns"; "Feature Request"; "WebSocket Support";
    "Regional Issues"; "Cold Start Latency"; "TypeScript Support";
    "Mobile SDK"; "Security/Compliance"; "Data Loss"; "Build/Deploy Issues";
    "Positive Feedback" ].

(** The engagement boost of the value score, on the double the code has
    summed: a NaN total is above nothing. *)
Definition engagementBoost (total : float) : Z :=
  if (50 <? total)%float then 2 else if (20 <? total)%float then 1 else 0.

(** [likes + upvotes * 2 + comments], in doubles, left to right. *)
Definition totalEngagement (m : DataCleaning.EngagementMetrics) : float :=
  (DataCleaning.orZero (DataCleaning.likes m)
   + DataCleaning.orZero (DataCleaning.upvotes m) * 2
   + DataCleaning.orZero (DataCleaning.comments m))%float.

Definition valueKeywordBoost (lowerText : string) : Z :=
  (if mentions lowerText "revenue" "customer" then 1 else 0)
  + (if mentions lowerText "compliance" "security" then 1 else 0).

Definition tierBase (customerTier : string) : Z :=
  if (customerTier =? "Enterprise")%string then 9
  else if (customerTier =? "Pro")%string then 7
  else if (customerTier =? "Free")%string then 4
  else 5.

(** Which filters of [/api/feedback] a URL carries. *)
Definition present (params : Worker.SearchParams) (name : string) : bool :=
  truthy (params name).

Definition presentValue (params : Worker.SearchParams) (name : string) : list string :=
  valueOf (params name).

Definition feedbackClauses (params : Worker.SearchParams) : list string :=
  (oneClause "source_name = ?" (present params "source")
   ++ oneClause "urgency = ?" (present params "urgency")
   ++ oneClause "sentiment = ?" (present params "sentiment")
   ++ oneClause "product_name = ?" (present params "product")
   ++ oneClause "customer_tier = ?" (present params "tier"))%list.

Definition feedbackWhere (params : Worker.SearchParams) : string :=
  match feedbackClauses params with
  | [] => ""
  | cs => " AND " ++ join " AND " cs
  end.

Definition feedbackBindings (params : Worker.SearchParams) : list string :=
  (presentValue params "source" ++ presentValue params "urgency"
   ++ presentValue params "sentiment" ++ presentValue params "product"
   ++ presentValue params "tier")%list.

(** A URL that carries the given limit and no filter. *)
Definition onlyLimit (limit : string) : Worker.SearchParams :=
  fun name => if (name =? "limit")%string then Some limit else None.

(** The object [parseAIResponse] returns when the reply cannot be parsed:
    [{}], no property present. *)
Definition emptyObject : AiAgent.Parsed :=
  AiAgent.mkParsed None None None None None None.

(** A service whose theme call fails and whose other call answers. *)
Definition themeCallFails (answer : AiAgent.Parsed)
  (request : AiAgent.AiRequest) : AiAgent.Completion AiAgent.Parsed :=
  match request with
  | AiAgent.ThemePrompt _ => AiAgent.Thrown "429 Too Many Requests"
  | AiAgent.SentimentPrompt _ _ => AiAgent.Returned answer
  end.

End Spec.

(* ================================================================== *)
(** ** Facts about the string primitives                               *)
(* ================================================================== *)

Section StringFacts.
Import Js.

Lemma prefix_spec (p s : string) :
  prefix p s = true <-> exists rest, s = p ++ rest.
Proof.
  revert s; induction p as [|a p IH]; intros s; simpl.
  - split; [intros _; exists s; reflexivity | intros _; destruct s; reflexivity].
  - destruct s as [|b s]; simpl.
    + split; [discriminate | intros [rest H]; discriminate H].
    + destruct (ascii_dec a b) as [->|Hab].
      * rewrite IH. split; intros [rest H]; exists rest.
        -- now rewrite H.
        -- now inversion H.
      * split; [discriminate | intros [rest H]; inversion H; subst; now elim Hab].
Qed.

(** [includes] is the substring relation: [sub] sits somewhere in [s],
    whatever stands before and after it. *)
Lemma includes_spec (s sub : string) :
  includes s sub = true <-> exists before after, s = before ++ sub ++ after.
Proof.
  induction s as [|c s IH]; cbn [includes].
  - rewrite orb_false_r, prefix_spec. split.
    + intros [rest H]. exists "", rest. exact H.
    + intros [before [after H]]. destruct before; [|discriminate H].
      exists after. exact H.
  - rewrite orb_true_iff, prefix_spec, IH. split.
    + intros [[rest H]|[before [after H]]].
      * exists "", rest. exact H.
      * exists (String c before), after. simpl. now rewrite H.
    + intros [before [after H]]. destruct before as [|c' before]; simpl in H.
      * left. exists after. exact H.
      * right. inversion H. exists before, after. reflexivity.
Qed.

Lemma includes_absent (s sub : string) :
  (forall before after, s <> before ++ sub ++ after) -> includes s sub = false.
Proof.
  intros H. destruct (includes s sub) eqn:E; [|reflexivity].
  apply includes_spec in E. destruct E as [b [a E]]. now apply H in E.
Qed.

(** Lower-casing neither creates nor removes a digit. *)
Lemma lowerChar_digit (c : ascii) :
  isDigit (lowerChar c) = isDigit c /\ (isDigit c = true -> lowerChar c = c).
Proof.
  destruct c as [[] [] [] [] [] [] [] []]; split; intros; reflexivity || discriminate.
Qed.

Lemma takeDigits_toLowerCase (s : string) :
  takeDigits (toLowerCase s) = takeDigits s.
Proof.
  induction s as [|c s IH]; simpl; [reflexivity|].
  destruct (lowerChar_digit c) as [Hd Hc]. rewrite Hd.
  destruct (isDigit c); [|reflexivity]. now rewrite Hc, IH.
Qed.

(** The number the parser reads is the one the user typed: matching against
    the lower-cased text finds the same run of digits. *)
Lemma matchDigits_toLowerCase (s : string) :
  matchDigits (toLowerCase s) = matchDigits s.
Proof.
  induction s as [|c s IH]; simpl; [reflexivity|].
  destruct (lowerChar_digit c) as [Hd Hc]. rewrite Hd.
  destruct (isDigit c); [|exact IH]. now rewrite Hc, takeDigits_toLowerCase.
Qed.

(** [matchDigits] finds the leftmost maximal run: no digit before it, only
    digits in it, and no digit right after it. *)
Lemma takeDigits_spec (s : string) :
  exists after,
    s = takeDigits s ++ after
    /\ Spec.anyChar (fun c => negb (isDigit c)) (takeDigits s) = false
    /\ match after with
       | EmptyString => True
       | String c _ => isDigit c = false
       end.
Proof.
  induction s as [|c s [after [H1 [H2 H3]]]]; simpl.
  - exists "". repeat split.
  - destruct (isDigit c) eqn:E.
    + exists after. simpl. rewrite E, <- H1. simpl. repeat split; assumption.
    + exists (String c s). repeat split. exact E.
Qed.

Lemma matchDigits_spec (s digits : string) :
  matchDigits s = Some digits ->
  exists before after,
    s = before ++ digits ++ after
    /\ Spec.anyChar isDigit before = false
    /\ digits <> ""
    /\ Spec.anyChar (fun c => negb (isDigit c)) digits = false
    /\ match after with
       | EmptyString => True
       | String c _ => isDigit c = false
       end.
Proof.
  revert digits; induction s as [|c s IH]; simpl; intros digits H; [discriminate|].
  destruct (isDigit c) eqn:E.
  - inversion H; subst; clear H.
    destruct (takeDigits_spec s) as [after [H1 [H2 H3]]].
    exists "", after. simpl. rewrite E, <- H1. simpl.
    repeat split; try assumption. discriminate.
  - destruct (IH _ H) as [before [after [H1 [H2 H3]]]].
    exists (String c before), after. simpl. rewrite E, <- H1. simpl.
    split; [reflexivity|]. split; assumption.
Qed.

Lemma matchDigits_none (s : string) :
  matchDigits s = None <-> Spec.anyChar isDigit s = false.
Proof.
  induction s as [|c s IH]; simpl; [tauto|].
  destruct (isDigit c); simpl; [split; discriminate | exact IH].
Qed.

End StringFacts.

(* ================================================================== *)
(** ** The query intent parser                                         *)
(* ================================================================== *)

Section IntentParser.
Import Js SearchAgent.

(** Every field of the intent, as a rule on the lower-cased query. *)
Lemma parseIntentWithKeywords_tier (q : string) :
  customerTier (parseIntentWithKeywords q) = Spec.tierRule (toLowerCase q).
Proof. reflexivity. Qed.

Lemma parseIntentWithKeywords_product (q : string) :
  product (parseIntentWithKeywords q) = Spec.productRule (toLowerCase q).
Proof. reflexivity. Qed.

Lemma parseIntentWithKeywords_sortBy (q : string) :
  sortBy (parseIntentWithKeywords q) = Some "urgency_score".
Proof. reflexivity. Qed.

Lemma parseIntentWithKeywords_theme (q : string) :
  theme (parseIntentWithKeywords q) = None.
Proof. reflexivity. Qed.

Lemma parseIntentWithKeywords_limit (q : string) :
  limit (parseIntentWithKeywords q) = Some (Spec.limitRule (toLowerCase q)).
Proof.
  unfold parseIntentWithKeywords, Spec.limitRule, Spec.mentionsListing,
    Spec.inLimitRange; cbn [limit].
  destruct (includes (toLowerCase q) "list" || includes (toLowerCase q) "show me"
            || includes (toLowerCase q) "review"); [reflexivity|].
  destruct (matchDigits (toLowerCase q)) as [digits|]; [|reflexivity].
  replace (0 <? parseInt digits) with (1 <=? parseInt digits); [reflexivity|].
  destruct (Z.leb_spec 1 (parseInt digits)), (Z.ltb_spec 0 (parseInt digits));
    reflexivity || lia.
Qed.

Lemma limitRule_bounds (lowerQuery : string) :
  1 <= Spec.limitRule lowerQuery <= 100.
Proof.
  unfold Spec.limitRule, Spec.inLimitRange.
  destruct (Spec.mentionsListing lowerQuery); [lia|].
  destruct (matchDigits lowerQuery) as [digits|]; [|lia].
  destruct (Z.leb_spec 1 (parseInt digits)), (Z.leb_spec (parseInt digits) 100);
    simpl; lia.
Qed.

(** C4.  Whatever the query text, the parsed limit is an integer between 1
    and 100: it is 50 when the text holds a listing keyword; otherwise it is
    the integer of the first run of digits when that lies in [1,100], and 20
    when there is no digit or the integer lies outside [1,100]. *)
Theorem limit_always_within_bounds (q : string) :
  exists n,
    limit (parseIntentWithKeywords q) = Some n
    /\ 1 <= n <= 100
    /\ n = (if Spec.mentionsListing (toLowerCase q) then 50
            else match matchDigits q with
                 | Some digits =>
                     if Spec.inLimitRange (parseInt digits)
                     then parseInt digits else 20
                 | None => 20
                 end).
Proof.
  exists (Spec.limitRule (toLowerCase q)).
  split; [apply parseIntentWithKeywords_limit|].
  split; [apply limitRule_bounds|].
  unfold Spec.limitRule. now rewrite matchDigits_toLowerCase.
Qed.

Example limit_of_adversarial_number :
  limit (parseIntentWithKeywords "Give me 999 items") = Some 20
  /\ limit (parseIntentWithKeywords "What do customers say?") = Some 20
  /\ limit (parseIntentWithKeywords "Show me 999 items") = Some 50.
Proof. repeat split; reflexivity. Qed.

(** C3, as the specification words it: an explicit integer within [1,100]
    would win over the listing rule.  The query "list 10 items" refutes
    it. *)
Lemma explicit_number_does_not_win :
  ~ (forall q digits,
       matchDigits q = Some digits ->
       Spec.inLimitRange (parseInt digits) = true ->
       limit (parseIntentWithKeywords q) = Some (parseInt digits)).
Proof.
  intros H.
  specialize (H "list 10 items" "10" eq_refl eq_refl).
  vm_compute in H. discriminate H.
Qed.

(** C3, amended.  When the first run of digits of the query denotes an
    integer within [1,100], that integer is the limit exactly when the query
    holds none of "list", "show me", "review"; with one of them the limit is
    50 whatever the number. *)
Theorem explicit_number_sets_limit_unless_listing (q digits : string) :
  matchDigits q = Some digits ->
  Spec.inLimitRange (parseInt digits) = true ->
  limit (parseIntentWithKeywords q)
  = Some (if Spec.mentionsListing (toLowerCase q) then 50 else parseInt digits).
Proof.
  intros Hm Hr. rewrite parseIntentWithKeywords_limit. unfold Spec.limitRule.
  now rewrite matchDigits_toLowerCase, Hm, Hr.
Qed.

Lemma explicit_number_sets_limit_witness :
  limit (parseIntentWithKeywords "Top 10 billing issues") = Some 10
  /\ limit (parseIntentWithKeywords "Review the top 10 billing issues") = Some 50.
Proof.
  split.
  - exact (explicit_number_sets_limit_unless_listing
             "Top 10 billing issues" "10" eq_refl eq_refl).
  - exact (explicit_number_sets_limit_unless_listing
             "Review the top 10 billing issues" "10" eq_refl eq_refl).
Defined.

(** C5.  A query that holds a listing keyword and none of "urgent",
    "critical", "negative", "positive" gets no urgency and no sentiment
    filter, whatever other keywords it holds; the tier and product rules
    still apply, and the limit is 50. *)
Theorem simple_listing_suppresses_filters (q : string) :
  Spec.mentionsListing (toLowerCase q) = true ->
  Spec.mentionsSeverity (toLowerCase q) = false ->
  urgency (parseIntentWithKeywords q) = None
  /\ sentiment (parseIntentWithKeywords q) = None
  /\ customerTier (parseIntentWithKeywords q) = Spec.tierRule (toLowerCase q)
  /\ product (parseIntentWithKeywords q) = Spec.productRule (toLowerCase q)
  /\ limit (parseIntentWithKeywords q) = Some 50.
Proof.
  intros Hl Hs.
  assert (Hlim : limit (parseIntentWithKeywords q) = Some 50).
  { rewrite parseIntentWithKeywords_limit. unfold Spec.limitRule. now rewrite Hl. }
  unfold Spec.mentionsListing, Spec.mentionsSeverity in Hl, Hs.
  repeat split; try assumption; try reflexivity;
    unfold parseIntentWithKeywords; cbn [urgency sentiment];
    destruct (includes (toLowerCase q) "review"),
             (includes (toLowerCase q) "show me"),
             (includes (toLowerCase q) "list"),
             (includes (toLowerCase q) "urgent"),
             (includes (toLowerCase q) "critical"),
             (includes (toLowerCase q) "negative"),
             (includes (toLowerCase q) "positive");
    simpl in *; try discriminate; reflexivity.
Qed.

Lemma simple_listing_witness :
  urgency (parseIntentWithKeywords "list feedback") = None
  /\ sentiment (parseIntentWithKeywords "list feedback") = None
  /\ customerTier (parseIntentWithKeywords "list feedback") = None
  /\ product (parseIntentWithKeywords "list feedback") = None
  /\ limit (parseIntentWithKeywords "list feedback") = Some 50.
Proof.
  exact (simple_listing_suppresses_filters "list feedback" eq_refl eq_refl).
Defined.

Example listing_with_other_keywords :
  parseIntentWithKeywords "Show me important complaints about Workers AI from free users"
  = {| urgency := None; sentiment := None; product := Some "Workers AI";
       theme := None; customerTier := Some "Free";
       sortBy := Some "urgency_score"; limit := Some 50 |}.
Proof. reflexivity. Qed.

Example listing_with_severity_keyword :
  parseIntentWithKeywords "Show me critical issues from enterprise customers"
  = {| urgency := Some ["Critical"]; sentiment := None; product := None;
       theme := None; customerTier := Some "Enterprise";
       sortBy := Some "urgency_score"; limit := Some 50 |}.
Proof. reflexivity. Qed.

(** C10.  Tier detection is a raw substring test in the order "enterprise",
    "pro", "free": without "enterprise" in the lower-cased query, "pro"
    anywhere in it (whatever stands before and after) gives the tier Pro,
    and without "pro" either, "free" anywhere in it gives the tier Free. *)
Theorem tier_detection_is_raw_substring (q : string) :
  (forall before after, toLowerCase q <> before ++ "enterprise" ++ after) ->
  ((exists before after, toLowerCase q = before ++ "pro" ++ after) ->
   customerTier (parseIntentWithKeywords q) = Some "Pro")
  /\ ((forall before after, toLowerCase q <> before ++ "pro" ++ after) ->
      (exists before after, toLowerCase q = before ++ "free" ++ after) ->
      customerTier (parseIntentWithKeywords q) = Some "Free").
Proof.
  intros He. apply includes_absent in He.
  rewrite parseIntentWithKeywords_tier. unfold Spec.tierRule. rewrite He.
  split.
  - intros Hp. apply includes_spec in Hp. now rewrite Hp.
  - intros Hp Hf. apply includes_absent in Hp. apply includes_spec in Hf.
    now rewrite Hp, Hf.
Qed.

Lemma absent_by_computation (s sub : string) :
  includes s sub = false -> forall before after, s <> before ++ sub ++ after.
Proof.
  intros H before after E.
  assert (T : includes s sub = true) by (apply includes_spec; eauto).
  rewrite H in T. discriminate T.
Qed.

Lemma tier_detection_witness :
  customerTier (parseIntentWithKeywords "Problems with the product page") = Some "Pro"
  /\ customerTier (parseIntentWithKeywords "Freedom to export data") = Some "Free".
Proof.
  split.
  - apply (proj1 (tier_detection_is_raw_substring "Problems with the product page"
                    (absent_by_computation
                       (toLowerCase "Problems with the product page") "enterprise"
                       eq_refl))).
    exists "", "blems with the product page". reflexivity.
  - apply (proj2 (tier_detection_is_raw_substring "Freedom to export data"
                    (absent_by_computation
                       (toLowerCase "Freedom to export data") "enterprise"
                       eq_refl))).
    + apply absent_by_computation. reflexivity.
    + exists "", "dom to export data". reflexivity.
Defined.

End IntentParser.

(* ================================================================== *)
(** ** The SQL query builder                                           *)
(* ================================================================== *)

Section QueryBuilder.
Import Js SearchAgent.

Lemma string_app_assoc (a b c : string) : (a ++ b) ++ c = a ++ b ++ c.
Proof. induction a as [|x a IH]; simpl; [reflexivity | now rewrite IH]. Qed.

Lemma string_app_empty (a : string) : a ++ "" = a.
Proof. induction a as [|x a IH]; simpl; [reflexivity | now rewrite IH]. Qed.

Lemma string_app_length (a b : string) :
  String.length (a ++ b) = (String.length a + String.length b)%nat.
Proof. induction a as [|x a IH]; simpl; [reflexivity | now rewrite IH]. Qed.

Lemma placeholders_questionMarks (values : list string) :
  placeholders values = Spec.questionMarks (length values).
Proof. unfold placeholders, Spec.questionMarks. now rewrite map_const. Qed.

(** What one multi-valued filter adds to the two arrays. *)
Lemma addList_spec (column : string) (filter : option (list string)) (a : Acc) :
  addList column filter a
  = ((fst a ++ Spec.inClause column (length (Spec.valuesOf filter)))%list,
     (snd a ++ Spec.valuesOf filter)%list).
Proof.
  destruct a as [cs ps]. unfold addList, Spec.inClause, push.
  destruct filter as [[|v values]|]; cbn [Spec.valuesOf length fst snd].
  - change (0 <? 0)%nat with false. cbv iota. now rewrite !app_nil_r.
  - change (0 <? S (length values))%nat with true. cbv iota.
    now rewrite placeholders_questionMarks.
  - change (0 <? 0)%nat with false. cbv iota. now rewrite !app_nil_r.
Qed.

(** What one single-valued filter adds to the two arrays. *)
Lemma addOne_spec (condition : string) (wrap : string -> string)
  (filter : option string) (a : Acc) :
  addOne condition wrap filter a
  = ((fst a ++ Spec.oneClause condition (truthy filter))%list,
     (snd a ++ map wrap (Spec.valueOf filter))%list).
Proof.
  destruct a as [cs ps]. unfold addOne, Spec.oneClause, Spec.valueOf, push.
  destruct filter as [v|]; simpl; rewrite ?app_nil_r; try reflexivity.
  destruct (v =? "")%string; simpl; rewrite ?app_nil_r; reflexivity.
Qed.

Lemma generateSQL_conditions (intent : QueryIntent) :
  addOne "t.theme_name LIKE ?" (fun v => "%" ++ v ++ "%") (theme intent)
    (addOne "u.customer_tier = ?" (fun v => v) (customerTier intent)
       (addOne "pa.product_name = ?" (fun v => v) (product intent)
          (addList "sa.sentiment" (sentiment intent)
             (addList "sa.urgency" (urgency intent) ([], [])))))
  = (Spec.clauses (Spec.shapeOf intent), Spec.boundValues intent).
Proof.
  rewrite !addOne_spec, !addList_spec. cbn [fst snd].
  unfold Spec.clauses, Spec.boundValues, Spec.shapeOf; cbn -[Spec.inClause Spec.valuesOf
    Spec.valueOf Spec.oneClause truthy app map].
  rewrite !map_id, <- !app_assoc. reflexivity.
Qed.

(** The query text is a function of the shape of the filters, the sort key
    and the limit. *)
Lemma generateSQL_text (intent : QueryIntent) :
  fst (generateSQL intent)
  = Spec.queryText (Spec.shapeOf intent) (sortByOrDefault intent) (limitOrDefault intent).
Proof.
  unfold generateSQL. cbv zeta. rewrite generateSQL_conditions.
  unfold Spec.queryText, Spec.whereClause. cbn [fst].
  generalize sqlSelect as select. intros select.
  destruct (Spec.clauses (Spec.shapeOf intent)) as [|c cs].
  - cbn [length Nat.ltb Nat.leb]. simpl (select ++ "" ++ _).
    now rewrite !string_app_assoc.
  - cbn [length]. change (0 <? S (length cs))%nat with true. cbv iota.
    now rewrite !string_app_assoc.
Qed.

Lemma generateSQL_params (intent : QueryIntent) :
  snd (generateSQL intent) = Spec.boundValues intent.
Proof.
  unfold generateSQL. cbv zeta. rewrite generateSQL_conditions. reflexivity.
Qed.

Lemma countPlaceholders_app (a b : string) :
  Spec.countPlaceholders (a ++ b)
  = (Spec.countPlaceholders a + Spec.countPlaceholders b)%nat.
Proof. induction a as [|x a IH]; simpl; [reflexivity | rewrite IH; lia]. Qed.

Lemma countPlaceholders_join (sep : string) (l : list string) :
  Spec.countPlaceholders sep = O ->
  Spec.countPlaceholders (join sep l) = list_sum (map Spec.countPlaceholders l).
Proof.
  intros Hsep. induction l as [|x l IH]; [reflexivity|].
  destruct l as [|y l].
  - simpl. lia.
  - change (join sep (x :: y :: l)) with (x ++ sep ++ join sep (y :: l)).
    rewrite !countPlaceholders_app, Hsep, IH. reflexivity.
Qed.

Lemma countPlaceholders_questionMarks (n : nat) :
  Spec.countPlaceholders (Spec.questionMarks n) = n.
Proof.
  unfold Spec.questionMarks. rewrite countPlaceholders_join by reflexivity.
  induction n as [|n IH]; simpl; [reflexivity | now rewrite IH].
Qed.

Lemma countPlaceholders_inClause (column : string) (n : nat) :
  Spec.countPlaceholders column = O ->
  list_sum (map Spec.countPlaceholders (Spec.inClause column n)) = n.
Proof.
  intros Hc. unfold Spec.inClause. destruct n as [|n]; [reflexivity|].
  change (0 <? S n)%nat with true. cbn [map list_sum].
  rewrite !countPlaceholders_app, countPlaceholders_questionMarks, Hc. simpl. lia.
Qed.

Lemma countPlaceholders_whereClause (sh : Spec.Shape) :
  Spec.countPlaceholders (Spec.whereClause sh)
  = (Spec.urgencyValues sh + Spec.sentimentValues sh + Spec.boolToNat (Spec.hasProduct sh)
     + Spec.boolToNat (Spec.hasCustomerTier sh) + Spec.boolToNat (Spec.hasTheme sh))%nat.
Proof.
  assert (H : Spec.countPlaceholders (Spec.whereClause sh)
              = list_sum (map Spec.countPlaceholders (Spec.clauses sh))).
  { unfold Spec.whereClause. destruct (Spec.clauses sh) as [|c cs] eqn:E; [reflexivity|].
    rewrite countPlaceholders_app, countPlaceholders_join by reflexivity.
    reflexivity. }
  rewrite H. unfold Spec.clauses.
  rewrite !map_app, !list_sum_app, !countPlaceholders_inClause by reflexivity.
  destruct (Spec.hasProduct sh), (Spec.hasCustomerTier sh), (Spec.hasTheme sh);
    simpl; lia.
Qed.

Lemma length_valueOf (filter : option string) :
  length (Spec.valueOf filter) = Spec.boolToNat (truthy filter).
Proof.
  destruct filter as [v|]; [|reflexivity]. simpl.
  destruct (v =? "")%string; reflexivity.
Qed.

Lemma length_boundValues (intent : QueryIntent) :
  length (Spec.boundValues intent)
  = (Spec.urgencyValues (Spec.shapeOf intent) + Spec.sentimentValues (Spec.shapeOf intent)
     + Spec.boolToNat (Spec.hasProduct (Spec.shapeOf intent))
     + Spec.boolToNat (Spec.hasCustomerTier (Spec.shapeOf intent))
     + Spec.boolToNat (Spec.hasTheme (Spec.shapeOf intent)))%nat.
Proof.
  unfold Spec.boundValues, Spec.shapeOf. cbn [Spec.urgencyValues Spec.sentimentValues
    Spec.hasProduct Spec.hasCustomerTier Spec.hasTheme].
  rewrite !length_app, length_map, !length_valueOf. lia.
Qed.

(** C2.  The query text of [generateSQL] is fixed by the shape of the
    filters (how many urgency and sentiment values, which of product, tier
    and theme are present), the sort key and the limit: every present filter
    contributes one clause of column names and placeholders, joined with
    AND, and an absent filter contributes none.  The filter values are the
    parameter list, in the order urgency, sentiment, product, tier, theme
    (the theme between percent signs), and there is one placeholder per
    parameter. *)
Theorem generateSQL_binds_filter_values (intent : QueryIntent) :
  fst (generateSQL intent)
  = Spec.queryText (Spec.shapeOf intent) (sortByOrDefault intent) (limitOrDefault intent)
  /\ snd (generateSQL intent) = Spec.boundValues intent
  /\ Spec.countPlaceholders (Spec.whereClause (Spec.shapeOf intent))
     = length (snd (generateSQL intent)).
Proof.
  split; [apply generateSQL_text|].
  split; [apply generateSQL_params|].
  now rewrite generateSQL_params, countPlaceholders_whereClause, length_boundValues.
Qed.

Example whereClause_all_filters :
  Spec.whereClause (Spec.mkShape 2 1 true true true)
  = " AND sa.urgency IN (?,?) AND sa.sentiment IN (?) AND pa.product_name = ?"
    ++ " AND u.customer_tier = ? AND t.theme_name LIKE ?"
  /\ Spec.whereClause Spec.noFilters = "".
Proof. split; reflexivity. Qed.

(** The compiled text of a query with every filter set holds none of the
    filter values; they are the parameters. *)
Example generateSQL_all_filters :
  let intent :=
    mkIntent (Some ["Critical"; "High"]) (Some ["Frustrated"]) (Some "Workers AI")
      (Some "Billing") (Some "Enterprise") (Some "created_date") (Some 5) in
  fst (generateSQL intent)
  = sqlSelect
    ++ " AND sa.urgency IN (?,?) AND sa.sentiment IN (?) AND pa.product_name = ?"
    ++ " AND u.customer_tier = ? AND t.theme_name LIKE ?"
    ++ " GROUP BY fm.feedback_id ORDER BY created_date DESC, fm.created_date DESC LIMIT 5"
  /\ snd (generateSQL intent)
     = ["Critical"; "High"; "Frustrated"; "Workers AI"; "Enterprise"; "%Billing%"]
  /\ forallb (fun v => negb (includes (fst (generateSQL intent)) v))
       ["Critical"; "High"; "Frustrated"; "Workers AI"; "Enterprise"; "Billing"]
     = true.
Proof. repeat split; vm_compute; reflexivity. Qed.

End QueryBuilder.

Section QuerySafety.
Import Js SearchAgent.

Lemma concat_length_bound (s : string) (l : list string) :
  In s l -> (String.length s <= String.length (String.concat "" l))%nat.
Proof.
  induction l as [|x l IH]; intros H; [destruct H|].
  assert (E : String.concat "" (x :: l) = x ++ String.concat "" l).
  { destruct l; simpl; [now rewrite string_app_empty | reflexivity]. }
  rewrite E, string_app_length. destruct H as [->|H]; [lia|].
  specialize (IH H). lia.
Qed.

(** Any non-empty sort key reaches the query text as it is. *)
Lemma sortByOrDefault_unchecked (sortKey : string) (n : Z) :
  sortKey <> "" -> sortByOrDefault (Spec.sortedIntent sortKey n) = sortKey.
Proof.
  intros H. unfold sortByOrDefault, Spec.sortedIntent; cbn [sortBy truthy].
  destruct (String.eqb_spec sortKey ""); [contradiction | reflexivity].
Qed.

(** C1, as the specification words it: every sort key that [generateSQL]
    interpolates would belong to a closed set, and every limit to [1,100].
    No finite set holds all the sort keys the function interpolates, the
    limit 1000 is interpolated as it is, and a sort key that carries an SQL
    statement goes into the text unchanged. *)
Lemma generateSQL_validates_nothing :
  ~ (exists allowed : list string,
       forall intent, In (sortByOrDefault intent) allowed)
  /\ ~ (forall intent, 1 <= limitOrDefault intent <= 100)
  /\ fst (generateSQL (Spec.sortedIntent "created_date; DROP TABLE users --" 1000))
     = Spec.queryText Spec.noFilters "created_date; DROP TABLE users --" 1000.
Proof.
  split; [|split].
  - intros [allowed H].
    specialize (H (Spec.sortedIntent (String "x" (String.concat "" allowed)) 0)).
    rewrite sortByOrDefault_unchecked in H by discriminate.
    apply concat_length_bound in H. simpl in H. lia.
  - intros H. specialize (H (Spec.sortedIntent "urgency_score" 1000)).
    vm_compute in H. destruct H as [_ H]. now apply H.
  - vm_compute. reflexivity.
Qed.

Lemma limitOrDefault_parsed (q : string) :
  limitOrDefault (parseIntentWithKeywords q) = Spec.limitRule (toLowerCase q).
Proof.
  unfold limitOrDefault. rewrite parseIntentWithKeywords_limit.
  pose proof (limitRule_bounds (toLowerCase q)) as B.
  destruct (Z.eqb_spec (Spec.limitRule (toLowerCase q)) 0); [lia | reflexivity].
Qed.

(** C1, amended.  [generateSQL] interpolates two values and no other, the
    sort key (or "urgency_score" when the intent has none) and the limit (or
    20), and checks neither.  On the path from a query text, through
    [parseIntentWithKeywords], the sort key is the constant "urgency_score"
    and the limit lies in [1,100], so the query text is the fixed template
    around a number between 1 and 100. *)
Theorem production_query_interpolates_checked_values :
  (forall intent,
     fst (generateSQL intent)
     = Spec.queryText (Spec.shapeOf intent) (sortByOrDefault intent)
         (limitOrDefault intent))
  /\ (forall q,
        sortByOrDefault (parseIntentWithKeywords q) = "urgency_score"
        /\ 1 <= limitOrDefault (parseIntentWithKeywords q) <= 100
        /\ fst (generateSQL (parseIntentWithKeywords q))
           = Spec.queryText (Spec.shapeOf (parseIntentWithKeywords q))
               "urgency_score" (limitOrDefault (parseIntentWithKeywords q))).
Proof.
  split; [exact generateSQL_text|].
  intros q. split; [reflexivity|].
  split; [rewrite limitOrDefault_parsed; apply limitRule_bounds|].
  rewrite generateSQL_text. reflexivity.
Qed.

(** Two intents that differ only in the values of their filters compile to
    the same query text. *)
Corollary generateSQL_text_ignores_values (i1 i2 : QueryIntent) :
  Spec.shapeOf i1 = Spec.shapeOf i2 ->
  sortByOrDefault i1 = sortByOrDefault i2 ->
  limitOrDefault i1 = limitOrDefault i2 ->
  fst (generateSQL i1) = fst (generateSQL i2).
Proof. intros Hs Hk Hl. now rewrite !generateSQL_text, Hs, Hk, Hl. Qed.

End QuerySafety.

(* ================================================================== *)
(** ** The heuristic scorer and the text cleaner                       *)
(* ================================================================== *)

Section Scorer.
Import Js DataCleaning.

Lemma base_lookup (urgency : string) :
  existsb (String.eqb urgency) objectPrototypeKeys = false ->
  orDefault (urgencyScores urgency) 5 = Num (Spec.baseScore urgency).
Proof.
  intros H. unfold urgencyScores, Spec.baseScore. rewrite H.
  destruct (urgency =? "Critical")%string; [reflexivity|].
  destruct (urgency =? "High")%string; [reflexivity|].
  destruct (urgency =? "Medium")%string; [reflexivity|].
  destruct (urgency =? "Low")%string; reflexivity.
Qed.

Lemma baseScore_range (urgency : string) : 3 <= Spec.baseScore urgency <= 10.
Proof.
  unfold Spec.baseScore.
  destruct (urgency =? "Critical")%string; [lia|].
  destruct (urgency =? "High")%string; [lia|].
  destruct (urgency =? "Medium")%string; [lia|].
  destruct (urgency =? "Low")%string; lia.
Qed.

Lemma keywordBoost_range (lowerText : string) : 0 <= Spec.keywordBoost lowerText <= 7.
Proof.
  unfold Spec.keywordBoost.
  destruct (Spec.mentions lowerText "urgent" "critical"),
           (Spec.mentions lowerText "blocking" "can't"),
           (Spec.mentions lowerText "production" "outage"),
           (Spec.mentions lowerText "data loss" "security"); lia.
Qed.

(** For an urgency that is not a name inherited from [Object.prototype],
    the score is the base value of the lookup (5 for an unlisted category)
    plus the keyword boosts plus the Enterprise boost, clamped to [1,10];
    so it lies in [1,10] and is never below the clamped base value. *)
Theorem calculateUrgencyScore_formula (urgency feedbackText customerTier : string) :
  existsb (String.eqb urgency) objectPrototypeKeys = false ->
  exists n,
    calculateUrgencyScore urgency feedbackText customerTier = Num n
    /\ n = Spec.clampScore (Spec.baseScore urgency
                            + Spec.keywordBoost (toLowerCase feedbackText)
                            + Spec.tierBoost customerTier)
    /\ 1 <= n <= 10
    /\ Spec.clampScore (Spec.baseScore urgency) <= n.
Proof.
  intros H.
  pose proof (baseScore_range urgency) as Hb.
  pose proof (keywordBoost_range (toLowerCase feedbackText)) as Hk.
  eexists. split; [|split; [reflexivity|]].
  - unfold calculateUrgencyScore. cbv zeta. rewrite (base_lookup _ H).
    unfold Spec.keywordBoost, Spec.tierBoost, Spec.mentions.
    destruct (includes (toLowerCase feedbackText) "urgent"
              || includes (toLowerCase feedbackText) "critical"),
             (includes (toLowerCase feedbackText) "blocking"
              || includes (toLowerCase feedbackText) "can't"),
             (includes (toLowerCase feedbackText) "production"
              || includes (toLowerCase feedbackText) "outage"),
             (includes (toLowerCase feedbackText) "data loss"
              || includes (toLowerCase feedbackText) "security"),
             (customerTier =? "Enterprise")%string;
      cbn [add clamp]; unfold Spec.clampScore; f_equal; f_equal; f_equal; lia.
  - unfold Spec.clampScore, Spec.tierBoost.
    destruct (customerTier =? "Enterprise")%string; lia.
Qed.

Lemma calculateUrgencyScore_witness :
  exists n,
    calculateUrgencyScore "High" "URGENT: production outage, can't deploy" "Enterprise"
    = Num n
    /\ n = Spec.clampScore (Spec.baseScore "High"
             + Spec.keywordBoost (toLowerCase "URGENT: production outage, can't deploy")
             + Spec.tierBoost "Enterprise")
    /\ 1 <= n <= 10
    /\ Spec.clampScore (Spec.baseScore "High") <= n.
Proof.
  exact (calculateUrgencyScore_formula
           "High" "URGENT: production outage, can't deploy" "Enterprise" eq_refl).
Defined.

Example calculateUrgencyScore_values :
  calculateUrgencyScore "High" "URGENT: production outage, can't deploy" "Enterprise" = Num 10
  /\ calculateUrgencyScore "Low" "" "Free" = Num 3
  /\ calculateUrgencyScore "Low" "security question" "Enterprise" = Num 6
  /\ calculateUrgencyScore "Blocker" "" "Pro" = Num 5.
Proof. repeat split; reflexivity. Qed.

(** C7.  The score is meant to lie in [1,10] for every urgency, with base 5
    for a category the table does not list.  The table is an object
    literal, though: under each of the twelve names it inherits from
    [Object.prototype] the read finds a function or an object instead of
    [undefined], the default 5 is not taken, and the result is NaN whatever
    the text and the tier.  At "constructor", with an empty text and the
    Free tier, the code returns NaN where 5 is due. *)
Theorem calculateUrgencyScore_inherited_name_is_not_a_number
  (feedbackText customerTier : string) :
  calculateUrgencyScore "constructor" "" "Free" = NaN
  /\ Forall (fun urgency => calculateUrgencyScore urgency feedbackText customerTier = NaN)
       objectPrototypeKeys
  /\ Spec.clampScore (Spec.baseScore "constructor" + Spec.keywordBoost (toLowerCase "")
                      + Spec.tierBoost "Free") = 5.
Proof.
  split; [reflexivity|]. split; [|reflexivity].
  unfold calculateUrgencyScore. cbv zeta.
  repeat (constructor;
          [match goal with
           | |- context [orDefault ?p 5] => change (orDefault p 5) with NaN
           end;
           repeat match goal with
                  | |- context [if ?b then _ else _] => destruct b
                  end; reflexivity|]).
  constructor.
Qed.

(** The lookup table is an object literal: under a name it inherits, the
    read finds a function, and the score is not a number. *)
Example calculateUrgencyScore_inherited_name :
  calculateUrgencyScore "constructor" "" "Free" = NaN.
Proof. reflexivity. Qed.

End Scorer.

Section Cleaner.
Import Js DataCleaning.

Lemma newline_is_whiteSpace (c : ascii) : isNewline c = true -> isWhiteSpace c = true.
Proof.
  unfold isNewline, isWhiteSpace, between. intros H.
  apply Nat.eqb_eq in H. now rewrite H.
Qed.

(** After [/\s+/g] has been replaced by a space, no newline is left. *)
Lemma replaceWsRuns_no_newline (inRun : bool) (s : string) :
  Spec.anyChar isNewline (replaceWsRuns inRun s) = false.
Proof.
  revert inRun; induction s as [|c s IH]; intros inRun; simpl; [reflexivity|].
  destruct (isWhiteSpace c) eqn:E.
  - destruct inRun; simpl; now rewrite ?IH.
  - simpl. rewrite IH, orb_false_r.
    destruct (isNewline c) eqn:N; [|reflexivity].
    apply newline_is_whiteSpace in N. congruence.
Qed.

(** On a text without newlines, [/\n{3,}/g] matches nothing. *)
Lemma replaceNewlineRuns_without_newline (s : string) :
  Spec.anyChar isNewline s = false -> replaceNewlineRuns 0 s = s.
Proof.
  induction s as [|c s IH]; simpl; [reflexivity|].
  intros H. apply orb_false_iff in H. destruct H as [Hc Hs].
  rewrite Hc. simpl. now rewrite IH.
Qed.

Lemma sliceTo_anyChar (p : ascii -> bool) (n : nat) (s : string) :
  Spec.anyChar p s = false -> Spec.anyChar p (sliceTo n s) = false.
Proof.
  revert s; induction n as [|n IH]; intros [|c s]; simpl; try reflexivity.
  intros H. apply orb_false_iff in H. destruct H as [Hc Hs].
  now rewrite Hc, IH.
Qed.

Lemma sliceTo_length (n : nat) (s : string) :
  String.length (sliceTo n s) = Nat.min n (String.length s).
Proof.
  revert s; induction n as [|n IH]; intros [|c s]; simpl; try reflexivity.
  now rewrite IH.
Qed.

(** [s.slice(0, n)] is the beginning of [s]. *)
Lemma sliceTo_prefix (n : nat) (s : string) :
  exists rest, s = sliceTo n s ++ rest.
Proof.
  revert s; induction n as [|n IH]; intros [|c s]; simpl.
  - now exists "".
  - now exists (String c s).
  - now exists "".
  - destruct (IH s) as [rest H]. exists rest. now rewrite <- H.
Qed.

Lemma cleanText_pipeline (text : string) :
  cleanText text
  = if (text =? "")%string then ""
    else sliceTo 5000 (replaceWsRuns false (trim text)).
Proof.
  unfold cleanText. destruct (text =? "")%string; [reflexivity|].
  now rewrite replaceNewlineRuns_without_newline by apply replaceWsRuns_no_newline.
Qed.

(** C9.  What [cleanText] does: it trims, turns every run of white space,
    newlines included, into one space, and keeps the first 5000 code units;
    the rule for three or more newlines then finds nothing to match.  No
    newline survives, so the paragraph break between a title and a body
    comes out as one space. *)
Theorem cleanText_leaves_no_newline (text : string) :
  cleanText text
  = (if (text =? "")%string then ""
     else sliceTo 5000 (replaceWsRuns false (trim text)))
  /\ Spec.anyChar isNewline (cleanText text) = false
  /\ (String.length (cleanText text) <= 5000)%nat
  /\ cleanText (Spec.twoParagraphs "No title" "No description")
     = "No title No description".
Proof.
  split; [apply cleanText_pipeline|].
  split; [|split].
  - rewrite cleanText_pipeline. destruct (text =? "")%string; [reflexivity|].
    apply sliceTo_anyChar, replaceWsRuns_no_newline.
  - rewrite cleanText_pipeline. destruct (text =? "")%string; [simpl; lia|].
    rewrite sliceTo_length. apply Nat.le_min_l.
  - vm_compute. reflexivity.
Qed.

(** Had the newline rule been applied to the text as it came in, the break
    would have stayed. *)
Example newline_rule_alone :
  replaceNewlineRuns 0 (Spec.twoParagraphs "No title" "No description")
  = Spec.twoParagraphs "No title" "No description"
  /\ replaceNewlineRuns 0
       ("a" ++ String newline (String newline (String newline (String newline "b"))))
     = Spec.twoParagraphs "a" "b".
Proof. split; reflexivity. Qed.

End Cleaner.

(* ================================================================== *)
(** ** The keyword inference engine and the AI adapter                 *)
(* ================================================================== *)

Section Inference.
Import Js AiAgent.

(** C6, as the specification words it: equal, positive counts of positive
    and negative keywords would give Neutral.  "love ... but hate" has one
    of each and is Frustrated. *)
Lemma equal_counts_not_always_neutral :
  ~ (forall text,
       (0 < positiveCount (toLowerCase text))%nat ->
       positiveCount (toLowerCase text) = negativeCount (toLowerCase text) ->
       inferSentiment text = "Neutral").
Proof.
  intros H.
  specialize (H "I love the speed but hate the pricing").
  vm_compute in H. specialize (H (le_n 1) eq_refl). discriminate H.
Qed.

(** C6, amended.  With equal, positive counts of positive and negative
    keywords the sentiment is Neutral when the text matches no
    frustration keyword and does not hold "but", and Frustrated
    otherwise. *)
Theorem equal_counts_neutral_unless_frustrated (text : string) :
  (0 < positiveCount (toLowerCase text))%nat ->
  positiveCount (toLowerCase text) = negativeCount (toLowerCase text) ->
  inferSentiment text
  = if (0 <? frustratedCount (toLowerCase text))%nat
       || includes (toLowerCase text) "but"
    then "Frustrated" else "Neutral".
Proof.
  intros Hpos Heq. unfold inferSentiment. cbv zeta. rewrite <- Heq.
  replace (0 <? positiveCount (toLowerCase text))%nat with true
    by (symmetry; now apply Nat.ltb_lt).
  rewrite Nat.ltb_irrefl, andb_true_l. reflexivity.
Qed.

Lemma equal_counts_witness :
  inferSentiment "I love the speed and hate the pricing" = "Neutral"
  /\ inferSentiment "Great docs, terrible and confusing dashboard" = "Frustrated".
Proof.
  split.
  - refine (eq_trans (equal_counts_neutral_unless_frustrated
                        "I love the speed and hate the pricing" _ _) _);
      vm_compute; (reflexivity || lia).
  - refine (eq_trans (equal_counts_neutral_unless_frustrated
                        "Great docs, terrible and confusing dashboard" _ _) _);
      vm_compute; (reflexivity || lia).
Defined.

(** The three keyword lists overlap: "frustrated" counts as negative and as
    a frustration keyword. *)
Example frustrated_is_in_two_lists :
  In "frustrated" negativeWords /\ In "frustrated" frustratedWords.
Proof. split; simpl; tauto. Qed.

Section Adapter.
Variable AiResponse : Type.
Variable run : AiRequest -> Completion AiResponse.
Variable parseAIResponse : AiResponse -> option Parsed.

(** Neither sub-call rejects: each has its own handler, and the handlers
    are total. *)
Lemma extractThemes_returns (text : string) :
  exists r, extractThemes AiResponse run parseAIResponse text = Returned r.
Proof.
  unfold extractThemes, readProperties.
  destruct (run (ThemePrompt text)) as [response|m]; simpl; [|eauto].
  destruct (parseAIResponse response); simpl; eauto.
Qed.

Lemma analyzeSentimentAndUrgency_returns (text : string) (metadata : Metadata) :
  exists r,
    analyzeSentimentAndUrgency AiResponse run parseAIResponse text metadata = Returned r.
Proof.
  unfold analyzeSentimentAndUrgency, readProperties.
  destruct (run (SentimentPrompt text metadata)) as [response|m]; simpl; [|eauto].
  destruct (parseAIResponse response); simpl; eauto.
Qed.

(** [analyzeFeedback] never throws, whatever the service does. *)
Lemma analyzeFeedback_returns (text : string) (metadata : Metadata) :
  exists r, analyzeFeedback AiResponse run parseAIResponse text metadata = Returned r.
Proof.
  unfold analyzeFeedback.
  destruct (extractThemes_returns text) as [t Ht].
  destruct (analyzeSentimentAndUrgency_returns text metadata) as [s Hs].
  rewrite Ht, Hs. simpl. eauto.
Qed.

(** C8.  When both calls to the service throw, [analyzeFeedback] returns,
    and what it returns is the keyword fallback: the inferred theme,
    sentiment and urgency, the first 150 code units of the text followed by
    "...", value score 5 and confidence 0.5. *)
Theorem analyzeFeedback_falls_back (text : string) (metadata : Metadata)
  (m1 m2 : string) :
  run (ThemePrompt text) = Thrown m1 ->
  run (SentimentPrompt text metadata) = Thrown m2 ->
  analyzeFeedback AiResponse run parseAIResponse text metadata
  = Returned
      {| themes := [inferThemeFromKeywords text];
         sentiment := inferSentiment text;
         urgency := inferUrgency text;
         summary := sliceTo 150 text ++ "...";
         valueScore := 5%float;
         confidence := 0.5%float |}
  /\ analyzeFeedback AiResponse run parseAIResponse text metadata
     = Returned (getFallbackAnalysis text).
Proof.
  intros H1 H2.
  assert (E : analyzeFeedback AiResponse run parseAIResponse text metadata
              = Returned (getFallbackAnalysis text)).
  { unfold analyzeFeedback, extractThemes, analyzeSentimentAndUrgency.
    rewrite H1, H2. reflexivity. }
  split; exact E.
Qed.

End Adapter.

Lemma analyzeFeedback_witness :
  analyzeFeedback unit (fun _ => Thrown "429 Too Many Requests") (fun _ => None)
    "The dashboard is broken!!!" (mkMetadata (Some "Enterprise") None)
  = Returned
      {| themes := ["General Feedback"];
         sentiment := "Negative";
         urgency := "Critical";
         summary := "The dashboard is broken!!!...";
         valueScore := 5%float;
         confidence := 0.5%float |}.
Proof.
  exact (proj1 (analyzeFeedback_falls_back unit
                  (fun _ => Thrown "429 Too Many Requests") (fun _ => None)
                  "The dashboard is broken!!!" (mkMetadata (Some "Enterprise") None)
                  "429 Too Many Requests" "429 Too Many Requests" eq_refl eq_refl)).
Defined.

End Inference.

(* ================================================================== *)
(** ** Further facts about the string primitives                       *)
(* ================================================================== *)

Section TrimFacts.
Import Js.

Lemma lowerChar_whiteSpace (c : ascii) : isWhiteSpace (lowerChar c) = isWhiteSpace c.
Proof. destruct c as [[] [] [] [] [] [] [] []]; reflexivity. Qed.

Lemma lowerChar_idempotent (c : ascii) : lowerChar (lowerChar c) = lowerChar c.
Proof. destruct c as [[] [] [] [] [] [] [] []]; reflexivity. Qed.

Lemma toLowerCase_idempotent (s : string) : toLowerCase (toLowerCase s) = toLowerCase s.
Proof.
  induction s as [|c s IH]; simpl; [reflexivity|].
  now rewrite lowerChar_idempotent, IH.
Qed.

Lemma toLowerCase_empty (s : string) : toLowerCase s = "" <-> s = "".
Proof. destruct s; simpl; split; intros H; reflexivity || discriminate H. Qed.

Lemma toLowerCase_trimStart (s : string) :
  toLowerCase (trimStart s) = trimStart (toLowerCase s).
Proof.
  induction s as [|c s IH]; simpl; [reflexivity|].
  rewrite lowerChar_whiteSpace. destruct (isWhiteSpace c); [exact IH | reflexivity].
Qed.

Lemma toLowerCase_trimEnd (s : string) :
  toLowerCase (trimEnd s) = trimEnd (toLowerCase s).
Proof.
  induction s as [|c s IH]; simpl; [reflexivity|].
  rewrite <- IH, lowerChar_whiteSpace.
  destruct (trimEnd s); simpl; [destruct (isWhiteSpace c)|]; reflexivity.
Qed.

(** Lower-casing and trimming commute. *)
Lemma toLowerCase_trim (s : string) : toLowerCase (trim s) = trim (toLowerCase s).
Proof. unfold trim. now rewrite toLowerCase_trimEnd, toLowerCase_trimStart. Qed.

Lemma trimStart_head (s : string) : Spec.headIs isWhiteSpace (trimStart s) = false.
Proof.
  induction s as [|c s IH]; simpl; [reflexivity|].
  destruct (isWhiteSpace c) eqn:E; [exact IH | simpl; exact E].
Qed.

Lemma trimStart_fixed (s : string) :
  Spec.headIs isWhiteSpace s = false -> trimStart s = s.
Proof. destruct s as [|c s]; simpl; [reflexivity | now intros ->]. Qed.

Lemma trimEnd_empty (s : string) :
  trimEnd s = "" -> Spec.anyChar (fun c => negb (isWhiteSpace c)) s = false.
Proof.
  induction s as [|c s IH]; simpl; [reflexivity|].
  destruct (trimEnd s); [|discriminate].
  destruct (isWhiteSpace c); [|discriminate]. intros _. simpl. now apply IH.
Qed.

Lemma trimEnd_last (s : string) : Spec.lastIs isWhiteSpace (trimEnd s) = false.
Proof.
  induction s as [|c s IH]; simpl; [reflexivity|].
  destruct (trimEnd s) as [|d r] eqn:E.
  - destruct (isWhiteSpace c) eqn:W; simpl; [reflexivity | exact W].
  - exact IH.
Qed.

Lemma trimEnd_fixed (s : string) :
  Spec.lastIs isWhiteSpace s = false -> trimEnd s = s.
Proof.
  induction s as [|c s IH]; simpl; [reflexivity|].
  destruct s as [|d r].
  - simpl. now intros ->.
  - intros H. rewrite (IH H). reflexivity.
Qed.

Lemma trimEnd_head (s : string) :
  Spec.headIs isWhiteSpace s = false -> Spec.headIs isWhiteSpace (trimEnd s) = false.
Proof.
  destruct s as [|c s]; simpl; [reflexivity|]. intros H.
  destruct (trimEnd s); [rewrite H|]; simpl; assumption.
Qed.

Lemma trim_head (s : string) : Spec.headIs isWhiteSpace (trim s) = false.
Proof. apply trimEnd_head, trimStart_head. Qed.

Lemma trim_last (s : string) : Spec.lastIs isWhiteSpace (trim s) = false.
Proof. apply trimEnd_last. Qed.

Lemma trim_fixed (s : string) :
  Spec.headIs isWhiteSpace s = false -> Spec.lastIs isWhiteSpace s = false ->
  trim s = s.
Proof. intros H L. unfold trim. now rewrite (trimStart_fixed _ H), (trimEnd_fixed _ L). Qed.

(** Trimming twice is trimming once. *)
Lemma trim_idempotent (s : string) : trim (trim s) = trim s.
Proof. apply trim_fixed; [apply trim_head | apply trim_last]. Qed.

Lemma trimStart_length (s : string) : (String.length (trimStart s) <= String.length s)%nat.
Proof.
  induction s as [|c s IH]; simpl; [lia|].
  destruct (isWhiteSpace c); simpl; lia.
Qed.

Lemma trimEnd_length (s : string) : (String.length (trimEnd s) <= String.length s)%nat.
Proof.
  induction s as [|c s IH]; simpl; [lia|].
  destruct (trimEnd s); [destruct (isWhiteSpace c)|]; simpl in *; lia.
Qed.

Lemma trim_length (s : string) : (String.length (trim s) <= String.length s)%nat.
Proof.
  unfold trim. pose proof (trimEnd_length (trimStart s)). pose proof (trimStart_length s). lia.
Qed.

End TrimFacts.

(* ================================================================== *)
(** ** More on the text cleaner and the list parser                    *)
(* ================================================================== *)

Section CleanerShape.
Import Js DataCleaning.

Lemma replaceWsRuns_singleSpaced (inRun : bool) (s : string) :
  Spec.singleSpaced inRun (replaceWsRuns inRun s) = true.
Proof.
  revert inRun; induction s as [|c s IH]; intros inRun; simpl; [reflexivity|].
  destruct (isWhiteSpace c) eqn:W.
  - destruct inRun; [apply IH|]. simpl. apply IH.
  - simpl. rewrite W. apply IH.
Qed.

Lemma sliceTo_singleSpaced (afterSpace : bool) (n : nat) (s : string) :
  Spec.singleSpaced afterSpace s = true ->
  Spec.singleSpaced afterSpace (sliceTo n s) = true.
Proof.
  revert afterSpace s; induction n as [|n IH]; intros b [|c s]; simpl; try reflexivity.
  destruct (isWhiteSpace c).
  - intros H. apply andb_true_iff in H. destruct H as [H1 H2].
    rewrite H1. simpl. now apply IH.
  - apply IH.
Qed.

Lemma replaceWsRuns_fixed (afterSpace : bool) (s : string) :
  Spec.singleSpaced afterSpace s = true -> replaceWsRuns afterSpace s = s.
Proof.
  revert afterSpace; induction s as [|c s IH]; intros b; simpl; [reflexivity|].
  destruct (isWhiteSpace c).
  - intros H. apply andb_true_iff in H. destruct H as [H1 H2].
    apply andb_true_iff in H1. destruct H1 as [Hc Hb].
    apply Ascii.eqb_eq in Hc. subst c. destruct b; [discriminate Hb|].
    now rewrite (IH true H2).
  - intros H. now rewrite (IH false H).
Qed.

Lemma replaceWsRuns_head (s : string) :
  Spec.headIs isWhiteSpace s = false ->
  Spec.headIs isWhiteSpace (replaceWsRuns false s) = false.
Proof. destruct s as [|c s]; simpl; [reflexivity|]. intros H. rewrite H. simpl. exact H. Qed.

Lemma replaceWsRuns_cons (inRun : bool) (c : ascii) (s : string) :
  replaceWsRuns inRun (String c s)
  = if isWhiteSpace c
    then (if inRun then replaceWsRuns true s else String " " (replaceWsRuns true s))
    else String c (replaceWsRuns false s).
Proof. reflexivity. Qed.

Lemma replaceWsRuns_nonempty (inRun : bool) (s : string) :
  s <> "" -> Spec.lastIs isWhiteSpace s = false -> replaceWsRuns inRun s <> "".
Proof.
  revert inRun; induction s as [|c s IH]; intros inRun Hne Hl; [contradiction|].
  destruct s as [|d r].
  - simpl in *. rewrite Hl. discriminate.
  - assert (Hr : forall b, replaceWsRuns b (String d r) <> "")
      by (intros b; apply IH; [discriminate | exact Hl]).
    rewrite replaceWsRuns_cons.
    destruct (isWhiteSpace c); [destruct inRun|]; try discriminate. apply Hr.
Qed.

Lemma lastIs_cons (p : ascii -> bool) (c : ascii) (s : string) :
  s <> "" -> Spec.lastIs p (String c s) = Spec.lastIs p s.
Proof. destruct s; [contradiction | reflexivity]. Qed.

Lemma replaceWsRuns_last (inRun : bool) (s : string) :
  Spec.lastIs isWhiteSpace s = false ->
  Spec.lastIs isWhiteSpace (replaceWsRuns inRun s) = false.
Proof.
  revert inRun; induction s as [|c s IH]; intros inRun Hl; [reflexivity|].
  destruct s as [|d r].
  - simpl in *. rewrite Hl. simpl. exact Hl.
  - assert (Hne : forall b, replaceWsRuns b (String d r) <> "")
      by (intros b; apply replaceWsRuns_nonempty; [discriminate | exact Hl]).
    assert (Hr : forall b, Spec.lastIs isWhiteSpace (replaceWsRuns b (String d r)) = false)
      by (intros b; apply IH; exact Hl).
    rewrite replaceWsRuns_cons.
    destruct (isWhiteSpace c); [destruct inRun|];
      rewrite ?lastIs_cons by apply Hne; apply Hr.
Qed.

Lemma replaceWsRuns_length (inRun : bool) (s : string) :
  (String.length (replaceWsRuns inRun s) <= String.length s)%nat.
Proof.
  revert inRun; induction s as [|c s IH]; intros inRun; simpl; [lia|].
  destruct (isWhiteSpace c); [destruct inRun|]; simpl;
    [pose proof (IH true) | pose proof (IH true) | pose proof (IH false)]; lia.
Qed.

Lemma sliceTo_head (p : ascii -> bool) (n : nat) (s : string) :
  Spec.headIs p s = false -> Spec.headIs p (sliceTo n s) = false.
Proof. destruct n, s; simpl; intros H; reflexivity || exact H. Qed.

Lemma sliceTo_all (n : nat) (s : string) :
  (String.length s <= n)%nat -> sliceTo n s = s.
Proof.
  revert s; induction n as [|n IH]; intros [|c s]; simpl; intros H;
    try reflexivity; [lia|].
  rewrite IH by lia. reflexivity.
Qed.

(** X1.  What every cleaned text looks like: its only white space is the space
    character, never two in a row and never in front, and it is no longer
    than the text it came from. *)
Theorem cleanText_normal_form (text : string) :
  Spec.singleSpaced false (cleanText text) = true
  /\ Spec.headIs isWhiteSpace (cleanText text) = false
  /\ (String.length (cleanText text) <= String.length text)%nat.
Proof.
  rewrite cleanText_pipeline. destruct (text =? "")%string; [repeat split; simpl; lia|].
  split; [|split].
  - apply sliceTo_singleSpaced, replaceWsRuns_singleSpaced.
  - apply sliceTo_head, replaceWsRuns_head, trim_head.
  - rewrite sliceTo_length.
    pose proof (replaceWsRuns_length false (trim text)).
    pose proof (trim_length text). lia.
Qed.

(** X2.  Cleaning is idempotent on every text of at most 5000 code units. *)
Theorem cleanText_idempotent (text : string) :
  (String.length text <= 5000)%nat ->
  cleanText (cleanText text) = cleanText text.
Proof.
  intros Hlen. rewrite (cleanText_pipeline text).
  destruct (text =? "")%string; [reflexivity|].
  set (x := replaceWsRuns false (trim text)).
  assert (Hx : (String.length x <= 5000)%nat).
  { pose proof (replaceWsRuns_length false (trim text)).
    pose proof (trim_length text). unfold x. lia. }
  rewrite (sliceTo_all _ _ Hx), cleanText_pipeline.
  destruct (x =? "")%string eqn:E; [now apply String.eqb_eq in E|].
  assert (Ht : trim x = x).
  { apply trim_fixed; unfold x;
      [apply replaceWsRuns_head, trim_head | apply replaceWsRuns_last, trim_last]. }
  rewrite Ht, (replaceWsRuns_fixed false x) by apply replaceWsRuns_singleSpaced.
  now apply sliceTo_all.
Qed.

Lemma cleanText_idempotent_example :
  cleanText (cleanText (Spec.twoParagraphs "  Slow   builds " "  since  Monday "))
  = cleanText (Spec.twoParagraphs "  Slow   builds " "  since  Monday ").
Proof.
  apply cleanText_idempotent. vm_compute. lia.
Defined.

Example cleanText_example :
  cleanText (Spec.twoParagraphs "  Slow   builds " "  since  Monday ")
  = "Slow builds since Monday".
Proof. vm_compute. reflexivity. Qed.

(** A text of white space only is truthy, so the callers' placeholder
    ("No description" and the like) is not used, and it cleans to the empty
    string. *)
Lemma cleanText_blank (text : string) :
  Spec.anyChar (fun c => negb (isWhiteSpace c)) text = false -> cleanText text = "".
Proof.
  intros H. rewrite cleanText_pipeline. destruct (text =? "")%string; [reflexivity|].
  assert (T : trimStart text = "").
  { induction text as [|c s IH]; [reflexivity|]. simpl in H.
    apply orb_false_iff in H. destruct H as [Hc Hs]. simpl.
    apply negb_false_iff in Hc. rewrite Hc. now apply IH. }
  unfold trim. rewrite T. reflexivity.
Qed.

Lemma filter_map_trim (l : list string) :
  Forall (fun piece => piece <> "" /\ trim piece = piece)
    (filter (fun piece => negb (piece =? "")%string) (map trim l)).
Proof.
  induction l as [|x l IH]; simpl; [constructor|].
  destruct (String.eqb_spec (trim x) ""); simpl; [exact IH|].
  constructor; [|exact IH]. split; [assumption | apply trim_idempotent].
Qed.

Lemma parseDelimitedString_trimmed (str : option string) (delimiter : string) :
  Forall (fun piece => piece <> "" /\ trim piece = piece)
    (parseDelimitedString str delimiter).
Proof.
  unfold parseDelimitedString. destruct str as [s|]; [|constructor].
  destruct (truthy (Some s)); [apply filter_map_trim | constructor].
Qed.

(** X3.  Every element [parseDelimitedString] returns is trimmed and not empty;
    an absent or empty string gives the empty list. *)
Theorem parseDelimitedString_elements (str : option string) (delimiter : string) :
  Forall (fun piece => piece <> "" /\ trim piece = piece)
    (parseDelimitedString str delimiter)
  /\ (truthy str = false -> parseDelimitedString str delimiter = []).
Proof.
  unfold parseDelimitedString. destruct str as [s|]; [|split; [constructor | reflexivity]].
  destruct (truthy (Some s)); split; try constructor; try reflexivity;
    try discriminate. apply filter_map_trim.
Qed.

Example parseDelimitedString_examples :
  parseDelimitedString (Some " bug , , Workers AI,") "," = ["bug"; "Workers AI"]
  /\ parseDelimitedString (Some "#workers  #d1 ") " " = ["#workers"; "#d1"]
  /\ parseDelimitedString (Some " ; ;") ";" = []
  /\ parseDelimitedString None "," = [].
Proof. repeat split; reflexivity. Qed.

End CleanerShape.

(* ================================================================== *)
(** ** The normalisers and the scores they feed                        *)
(* ================================================================== *)

Section Normalisers.
Import Js DataCleaning.

Lemma standardizeUrgency_category (urgencyStr : option string) :
  In (standardizeUrgency urgencyStr) Spec.urgencyCategories.
Proof.
  unfold standardizeUrgency, Spec.urgencyCategories.
  destruct urgencyStr as [s|]; [|simpl; tauto].
  destruct (truthy (Some s)); [|simpl; tauto].
  destruct (includes (trim (toLowerCase s)) "critical"
            || includes (trim (toLowerCase s)) "urgent"); [simpl; tauto|].
  destruct ((trim (toLowerCase s) =? "high")%string
            || includes (trim (toLowerCase s)) "blocking"); [simpl; tauto|].
  destruct (trim (toLowerCase s) =? "low")%string; simpl; tauto.
Qed.

Lemma inferUrgencyFromText_category (text : string) :
  In (inferUrgencyFromText text) Spec.urgencyCategories.
Proof.
  unfold inferUrgencyFromText, Spec.urgencyCategories. cbv zeta.
  repeat match goal with
         | |- context [if ?b then _ else _] => destruct b
         end; simpl; tauto.
Qed.

Lemma inferUrgencyFromLabels_category (labels : list string) :
  In (inferUrgencyFromLabels labels) Spec.urgencyCategories.
Proof.
  unfold inferUrgencyFromLabels, Spec.urgencyCategories. cbv zeta.
  repeat match goal with
         | |- context [if ?b then _ else _] => destruct b
         end; simpl; tauto.
Qed.

Lemma inferUrgencyFromCategory_category (category : option string) :
  In (inferUrgencyFromCategory category) Spec.urgencyCategories.
Proof.
  unfold inferUrgencyFromCategory, Spec.urgencyCategories.
  destruct category as [c|]; [|simpl; tauto].
  repeat match goal with
         | |- context [if ?b then _ else _] => destruct b
         end; simpl; tauto.
Qed.

Lemma category_score (urgency feedbackText customerTier : string) :
  In urgency Spec.urgencyCategories ->
  exists n,
    calculateUrgencyScore urgency feedbackText customerTier = Num n /\ 3 <= n <= 10.
Proof.
  intros H. unfold calculateUrgencyScore. cbv zeta.
  simpl in H. destruct H as [<-|[<-|[<-|[<-|[]]]]];
    match goal with
    | |- context [orDefault ?p 5] =>
        let v := eval vm_compute in (orDefault p 5) in
        change (orDefault p 5) with v
    end;
    repeat match goal with
           | |- context [if ?b then _ else _] => destruct b
           end;
    eexists; (split; [reflexivity | lia]).
Qed.

(** X4.  Whatever a row holds, the urgency that each of the four producers
    (priority column, message text, issue labels, forum category) hands to
    [calculateUrgencyScore] gives a number between 3 and 10: the score is
    never NaN and the lower clamp never acts. *)
Theorem ingested_urgency_score_in_range (feedbackText customerTier : string) :
  (forall priority, exists n,
      calculateUrgencyScore (standardizeUrgency priority) feedbackText customerTier
      = Num n /\ 3 <= n <= 10)
  /\ (forall text, exists n,
        calculateUrgencyScore (inferUrgencyFromText text) feedbackText customerTier
        = Num n /\ 3 <= n <= 10)
  /\ (forall labels, exists n,
        calculateUrgencyScore (inferUrgencyFromLabels labels) feedbackText customerTier
        = Num n /\ 3 <= n <= 10)
  /\ (forall category, exists n,
        calculateUrgencyScore (inferUrgencyFromCategory category) feedbackText customerTier
        = Num n /\ 3 <= n <= 10).
Proof.
  repeat split; intros x; apply category_score;
    [apply standardizeUrgency_category | apply inferUrgencyFromText_category
    | apply inferUrgencyFromLabels_category | apply inferUrgencyFromCategory_category].
Qed.

(** X5.  A Critical item scores 10 whatever its text and tier: the keyword and
    tier boosts cannot tell two critical items apart. *)
Theorem critical_always_scores_ten (feedbackText customerTier : string) :
  calculateUrgencyScore "Critical" feedbackText customerTier = Num 10.
Proof.
  unfold calculateUrgencyScore. cbv zeta.
  change (orDefault (urgencyScores "Critical") 5) with (Num 10).
  repeat match goal with
         | |- context [if ?b then _ else _] => destruct b
         end; reflexivity.
Qed.

(** An email's urgency never comes from its subject: [standardizeUrgency]
    returns a non-empty string, so the [||] fallback of [processEmail] is
    never taken. *)
Lemma standardizeUrgency_truthy (urgencyStr : option string) :
  truthy (Some (standardizeUrgency urgencyStr)) = true.
Proof.
  pose proof (standardizeUrgency_category urgencyStr) as H.
  simpl in H. destruct H as [<-|[<-|[<-|[<-|[]]]]]; reflexivity.
Qed.

Lemma standardizeTier_tier (tierStr : option string) :
  In (standardizeTier tierStr) Spec.tiers.
Proof.
  unfold standardizeTier, Spec.tiers. destruct tierStr as [s|]; [|simpl; tauto].
  repeat match goal with
         | |- context [if ?b then _ else _] => destruct b
         end; simpl; tauto.
Qed.

Lemma inferTierFromEmail_tier (email : option string) :
  In (inferTierFromEmail email) Spec.tiers.
Proof.
  unfold inferTierFromEmail, Spec.tiers. destruct email as [s|]; [|simpl; tauto].
  repeat match goal with
         | |- context [if ?b then _ else _] => destruct b
         end; simpl; tauto.
Qed.

Lemma inferTierFromAuthor_tier (author : option string) :
  In (inferTierFromAuthor author) Spec.tiers.
Proof.
  unfold inferTierFromAuthor, Spec.tiers. destruct author as [s|]; [|simpl; tauto].
  repeat match goal with
         | |- context [if ?b then _ else _] => destruct b
         end; simpl; tauto.
Qed.

Lemma tier_lookup (customerTier : string) :
  In customerTier Spec.tiers ->
  orDefault (tierScores customerTier) 5 = Num (Spec.tierBase customerTier)
  /\ 4 <= Spec.tierBase customerTier <= 9.
Proof.
  intros H. simpl in H. destruct H as [<-|[<-|[<-|[]]]]; split; reflexivity || (vm_compute; intuition discriminate).
Qed.

(** X6.  The value score of a tier that ingestion can produce is the tier base
    (9, 7 or 4) plus the engagement boost (2 above 50, 1 above 20, on the
    double likes + 2 x upvotes + comments) plus one for each of the two
    keyword pairs, cut at 10; it lies between 4 and 10 whatever doubles the
    engagement numbers are, negative, infinite and NaN included. *)
Theorem value_score_of_ingested_tier (customerTier feedbackText : string)
  (m : EngagementMetrics) :
  In customerTier Spec.tiers ->
  exists n,
    calculateValueScore customerTier feedbackText m = Num n
    /\ n = Z.min 10 (Spec.tierBase customerTier
                     + Spec.engagementBoost (Spec.totalEngagement m)
                     + Spec.valueKeywordBoost (toLowerCase feedbackText))
    /\ 4 <= n <= 10.
Proof.
  intros H. destruct (tier_lookup _ H) as [E B].
  unfold calculateValueScore. cbv zeta. rewrite E.
  unfold Spec.engagementBoost, Spec.valueKeywordBoost, Spec.mentions.
  fold (Spec.totalEngagement m).
  eexists. split; [|split; [reflexivity|]].
  - destruct (50 <? Spec.totalEngagement m)%float, (20 <? Spec.totalEngagement m)%float,
      (includes (toLowerCase feedbackText) "revenue"
       || includes (toLowerCase feedbackText) "customer"),
      (includes (toLowerCase feedbackText) "compliance"
       || includes (toLowerCase feedbackText) "security");
      cbn [add clamp]; f_equal; lia.
  - destruct (50 <? Spec.totalEngagement m)%float, (20 <? Spec.totalEngagement m)%float,
      (includes (toLowerCase feedbackText) "revenue"
       || includes (toLowerCase feedbackText) "customer"),
      (includes (toLowerCase feedbackText) "compliance"
       || includes (toLowerCase feedbackText) "security"); lia.
Qed.

Lemma value_score_example :
  exists n,
    calculateValueScore "Pro" "Our customers ask about SOC2 compliance"
      (mkEngagement (Some 30%float) None None) = Num n
    /\ n = Z.min 10 (Spec.tierBase "Pro"
                     + Spec.engagementBoost
                         (Spec.totalEngagement (mkEngagement (Some 30%float) None None))
                     + Spec.valueKeywordBoost
                         (toLowerCase "Our customers ask about SOC2 compliance"))
    /\ 4 <= n <= 10.
Proof.
  apply (value_score_of_ingested_tier "Pro" "Our customers ask about SOC2 compliance"
           (mkEngagement (Some 30%float) None None)).
  simpl. tauto.
Defined.

(** The last two lines: one like beside 2^53 upvotes is lost in the double
    sum, so the total is 20 and earns no boost; a NaN count earns none
    either. *)
Example value_score_values :
  calculateValueScore "Pro" "Our customers ask about SOC2 compliance"
    (mkEngagement (Some 30%float) None None) = Num 10
  /\ calculateValueScore "Free" "" noEngagement = Num 4
  /\ calculateValueScore "Free" "" (mkEngagement (Some (-500)%float) None None) = Num 4
  /\ calculateValueScore "Enterprise" "" (mkEngagement None (Some 26%float) None) = Num 10
  /\ calculateValueScore "Free" ""
       (mkEngagement (Some 1%float) (Some 9007199254740992%float)
          (Some (-18014398509481964)%float)) = Num 4
  /\ calculateValueScore "Free" "" (mkEngagement (Some nan) None None) = Num 4.
Proof. repeat split; vm_compute; reflexivity. Qed.

End Normalisers.

Section Products.
Import Js DataCleaning.

Lemma ownProperty_in (key : string) (entries : list (string * string)) (v : string) :
  ownProperty key entries = Some v -> In v (map snd entries).
Proof.
  induction entries as [|[k w] rest IH]; simpl; [discriminate|].
  destruct (key =? k)%string.
  - intros H. inversion H. now left.
  - intros H. right. now apply IH.
Qed.

(** Every value of the synonym table is a seeded product area, is not
    empty, and is mapped to itself. *)
Lemma productMap_values :
  Forall (fun v => In v Spec.seededProducts
                   /\ v <> ""
                   /\ standardizeProductName (Some v) = ProductName v)
    (map snd productMap).
Proof.
  repeat (constructor;
          [split; [simpl; tauto | split; [discriminate | reflexivity]]|]).
  constructor.
Qed.

Lemma productMap_value (key v : string) :
  ownProperty key productMap = Some v ->
  In v Spec.seededProducts /\ v <> "" /\ standardizeProductName (Some v) = ProductName v.
Proof.
  intros H. apply ownProperty_in in H.
  exact (proj1 (Forall_forall _ _) productMap_values v H).
Qed.

Lemma truthy_nonempty (s : string) : s <> "" -> truthy (Some s) = true.
Proof. intros H. simpl. now destruct (String.eqb_spec s ""). Qed.

(** X7.  A name that [standardizeProductName] has produced is left as it is by
    a second pass: the canonical names are fixed points, and so is every
    trimmed unknown name. *)
Theorem standardizeProductName_idempotent (productStr name : string) :
  standardizeProductName (Some productStr) = ProductName name ->
  name <> "" ->
  standardizeProductName (Some name) = ProductName name.
Proof.
  unfold standardizeProductName at 1.
  destruct (truthy (Some productStr)); [|discriminate].
  destruct (ownProperty (trim (toLowerCase productStr)) productMap) as [v|] eqn:O.
  - intros H _. inversion H; subst. apply (productMap_value _ _ O).
  - destruct (existsb (String.eqb (trim (toLowerCase productStr))) objectPrototypeKeys)
      eqn:K; [discriminate|].
    intros H Hne. inversion H as [E]. subst name. unfold standardizeProductName.
    rewrite (truthy_nonempty _ Hne).
    rewrite toLowerCase_trim, !trim_idempotent, O, K. reflexivity.
Qed.

Lemma standardizeProductName_idempotent_example :
  standardizeProductName (Some "Workers AI") = ProductName "Workers AI".
Proof.
  apply (standardizeProductName_idempotent "  WORKERS-ai " "Workers AI").
  - reflexivity.
  - discriminate.
Defined.

Example standardizeProductName_examples :
  standardizeProductName (Some "  WORKERS-ai ") = ProductName "Workers AI"
  /\ standardizeProductName (Some " Turnstile ") = ProductName "Turnstile"
  /\ standardizeProductName (Some "   ") = ProductName ""
  /\ standardizeProductName (Some "") = NoProduct
  /\ standardizeProductName None = NoProduct
  /\ standardizeProductName (Some "Constructor") = InheritedValue.
Proof. repeat split; reflexivity. Qed.

Lemma standardized_label_truthy (label : string) :
  label <> "" -> trim label = label ->
  productTruthy (standardizeProductName (Some label)) = true.
Proof.
  intros Hne Ht. unfold standardizeProductName. rewrite (truthy_nonempty _ Hne).
  destruct (ownProperty (trim (toLowerCase label)) productMap) as [v|] eqn:O.
  - destruct (productMap_value _ _ O) as [_ [Hv _]]. simpl.
    now destruct (String.eqb_spec v "").
  - destruct (existsb _ objectPrototypeKeys); [reflexivity|].
    rewrite Ht. simpl. now destruct (String.eqb_spec label "").
Qed.

Lemma inferProductFromTags_labels (l : list string) :
  inferProductFromTags l = inferProductFromLabels l.
Proof. induction l as [|x l IH]; simpl; [reflexivity | now rewrite IH]. Qed.

(** X8.  The product of a labelled issue or tagged post is its first label,
    standardised, whether or not that label names a product: no later label
    is looked at. *)
Theorem first_label_decides_product (str : option string) (delimiter : string) :
  inferProductFromLabels (parseDelimitedString str delimiter)
  = match parseDelimitedString str delimiter with
    | [] => NoProduct
    | label :: _ => standardizeProductName (Some label)
    end
  /\ inferProductFromTags (parseDelimitedString str delimiter)
     = inferProductFromLabels (parseDelimitedString str delimiter).
Proof.
  split; [|apply inferProductFromTags_labels].
  pose proof (parseDelimitedString_trimmed str delimiter) as F.
  destruct (parseDelimitedString str delimiter) as [|label rest]; [reflexivity|].
  inversion F as [|? ? [Hne Ht] _]; subst. cbn [inferProductFromLabels].
  now rewrite (standardized_label_truthy _ Hne Ht).
Qed.

Example first_label_examples :
  inferProductFromLabels (parseDelimitedString (Some "bug, workers-ai") ",")
  = ProductName "bug"
  /\ inferProductFromLabels (parseDelimitedString (Some "workers-ai, bug") ",")
     = ProductName "Workers AI"
  /\ inferProductFromTags (parseDelimitedString (Some " ;d1;kv") ";")
     = ProductName "D1 Database".
Proof. repeat split; reflexivity. Qed.

(** X9.  Every product that the text heuristic infers is a seeded product area;
    every name the synonym table yields is a seeded product area or the
    trimmed input. *)
Theorem inferred_products_are_seeded :
  (forall text name,
     inferProductFromText text = Some name -> In name Spec.seededProducts)
  /\ (forall productStr name,
        standardizeProductName (Some productStr) = ProductName name ->
        In name Spec.seededProducts \/ name = trim productStr).
Proof.
  split.
  - intros text name. unfold inferProductFromText. cbv zeta.
    repeat match goal with
           | |- context [if ?b then _ else _] => destruct b
           end; intros H; inversion H; simpl; tauto.
  - intros productStr name. unfold standardizeProductName.
    destruct (truthy (Some productStr)); [|discriminate].
    destruct (ownProperty (trim (toLowerCase productStr)) productMap) as [v|] eqn:O.
    + intros H. inversion H; subst. left. apply (productMap_value _ _ O).
    + destruct (existsb _ objectPrototypeKeys); [discriminate|].
      intros H. inversion H. now right.
Qed.

(** "worker" and "ai" need not be near each other, nor "ai" a word. *)
Example inferProductFromText_examples :
  inferProductFromText "My worker failed to deploy" = Some "Workers AI"
  /\ inferProductFromText "Workflow stuck" = Some "Workflows"
  /\ inferProductFromText "Thanks!" = None.
Proof. repeat split; reflexivity. Qed.

End Products.

Section Tiers.
Import Js DataCleaning.

Lemma prefix_at_same (rest : string) : prefix "@" (String "@" rest) = true.
Proof. apply prefix_spec. now exists rest. Qed.

Lemma prefix_at_other (c : ascii) (rest : string) :
  Ascii.eqb "@" c = false -> prefix "@" (String c rest) = false.
Proof.
  intros H. destruct (prefix "@" (String c rest)) eqn:E; [|reflexivity].
  apply prefix_spec in E. destruct E as [r E]. inversion E; subst.
  rewrite Ascii.eqb_refl in H. discriminate H.
Qed.

(** Splitting at "@": the text before the first "@" is the first piece. *)
Lemma split_at_first (localPart rest : string) :
  Spec.anyChar (Ascii.eqb "@") localPart = false ->
  split "@" (localPart ++ String "@" rest) = localPart :: split "@" rest.
Proof.
  unfold split. change ("@" =? "")%string with false. cbv iota.
  induction localPart as [|c l IH]; intros H.
  - cbn [append splitAux]. rewrite prefix_at_same. reflexivity.
  - simpl in H. apply orb_false_iff in H. destruct H as [Hc Hl].
    change (String c l ++ String "@" rest) with (String c (l ++ String "@" rest)).
    cbn [splitAux]. rewrite (prefix_at_other _ _ Hc), (IH Hl). reflexivity.
Qed.

Lemma split_at_none (s : string) :
  Spec.anyChar (Ascii.eqb "@") s = false -> split "@" s = [s].
Proof.
  unfold split. change ("@" =? "")%string with false. cbv iota.
  induction s as [|c l IH]; intros H; [reflexivity|].
  simpl in H. apply orb_false_iff in H. destruct H as [Hc Hl].
  cbn [splitAux]. rewrite (prefix_at_other _ _ Hc), (IH Hl). reflexivity.
Qed.

Lemma append_at_truthy (localPart rest : string) :
  truthy (Some (localPart ++ String "@" rest)) = true.
Proof. destruct localPart; reflexivity. Qed.

(** X10.  The tier of an email address depends only on what follows its first
    "@": two addresses that differ in the local part get the same tier, and
    an address without "@" is Free. *)
Theorem inferTierFromEmail_ignores_local_part (local1 local2 rest : string) :
  Spec.anyChar (Ascii.eqb "@") local1 = false ->
  Spec.anyChar (Ascii.eqb "@") local2 = false ->
  inferTierFromEmail (Some (local1 ++ String "@" rest))
  = inferTierFromEmail (Some (local2 ++ String "@" rest))
  /\ inferTierFromEmail (Some local1) = "Free".
Proof.
  intros H1 H2. split.
  - unfold inferTierFromEmail.
    now rewrite !append_at_truthy, (split_at_first _ _ H1), (split_at_first _ _ H2).
  - unfold inferTierFromEmail. destruct (truthy (Some local1)); [|reflexivity].
    rewrite (split_at_none _ H1). reflexivity.
Qed.

Lemma inferTierFromEmail_example :
  inferTierFromEmail (Some "enterprise-admin@gmail.com")
  = inferTierFromEmail (Some "bob@gmail.com")
  /\ inferTierFromEmail (Some "enterprise-admin") = "Free".
Proof.
  exact (inferTierFromEmail_ignores_local_part "enterprise-admin" "bob" "gmail.com"
           eq_refl eq_refl).
Defined.

Example inferTierFromEmail_examples :
  inferTierFromEmail (Some "ceo@BigCo.com") = "Enterprise"
  /\ inferTierFromEmail (Some "ann@studio.com") = "Pro"
  /\ inferTierFromEmail (Some "enterprise-admin@gmail.com") = "Free"
  /\ inferTierFromEmail (Some "ann@home@corp.com") = "Free"
  /\ inferTierFromEmail None = "Free".
Proof. repeat split; reflexivity. Qed.

End Tiers.

(* ================================================================== *)
(** ** The vocabulary shared by parser, heuristics and schema          *)
(* ================================================================== *)

Section Vocabulary.
Import Js SearchAgent.

Lemma incl_valueOf (o : option string) (l : list string) :
  match o with Some v => In v l | None => True end -> incl (Spec.valueOf o) l.
Proof.
  destruct o as [v|]; simpl; [|intros _ x []].
  destruct (v =? "")%string; simpl; intros H x; [intros [] | intros [<-|[]]; exact H].
Qed.

(** X11.  On the path from a query text, every value bound to the statement is a
    constant of the code: an urgency category, a sentiment, a seeded
    product area or a tier.  No part of the user's text is bound or
    interpolated, and the theme clause is never produced. *)
Theorem production_parameters_are_constants (q : string) :
  snd (generateSQL (parseIntentWithKeywords q))
  = (Spec.valuesOf (urgency (parseIntentWithKeywords q))
     ++ Spec.valuesOf (sentiment (parseIntentWithKeywords q))
     ++ Spec.valueOf (product (parseIntentWithKeywords q))
     ++ Spec.valueOf (customerTier (parseIntentWithKeywords q)))%list
  /\ incl (Spec.valuesOf (urgency (parseIntentWithKeywords q))) Spec.urgencyCategories
  /\ incl (Spec.valuesOf (sentiment (parseIntentWithKeywords q))) Spec.sentiments
  /\ incl (Spec.valueOf (product (parseIntentWithKeywords q))) Spec.seededProducts
  /\ incl (Spec.valueOf (customerTier (parseIntentWithKeywords q))) Spec.tiers
  /\ Spec.hasTheme (Spec.shapeOf (parseIntentWithKeywords q)) = false.
Proof.
  split; [|split; [|split; [|split; [|split]]]].
  - rewrite generateSQL_params. unfold Spec.boundValues.
    rewrite parseIntentWithKeywords_theme. simpl (map _ (Spec.valueOf None)).
    now rewrite app_nil_r.
  - unfold parseIntentWithKeywords; cbn [urgency].
    repeat match goal with
           | |- context [if ?b then _ else _] => destruct b
           end; simpl; intros x H; simpl in *; tauto.
  - unfold parseIntentWithKeywords; cbn [sentiment].
    repeat match goal with
           | |- context [if ?b then _ else _] => destruct b
           end; simpl; intros x H; simpl in *; tauto.
  - rewrite parseIntentWithKeywords_product. apply incl_valueOf.
    unfold Spec.productRule.
    repeat match goal with
           | |- context [if ?b then _ else _] => destruct b
           end; simpl; tauto.
  - rewrite parseIntentWithKeywords_tier. apply incl_valueOf.
    unfold Spec.tierRule.
    repeat match goal with
           | |- context [if ?b then _ else _] => destruct b
           end; simpl; tauto.
  - reflexivity.
Qed.

Example production_parameters_example :
  snd (generateSQL (parseIntentWithKeywords
                      "urgent complaints about R2 from pro users'; DROP TABLE users --"))
  = ["Critical"; "Negative"; "Frustrated"; "R2 Storage"; "Pro"].
Proof. reflexivity. Qed.

End Vocabulary.

Section Heuristics.
Import Js AiAgent.

(** X12.  The fallback theme is one of eleven seeded themes or "General
    Feedback", which the schema does not seed; three seeded themes are out
    of its reach. *)
Theorem inferThemeFromKeywords_range (text : string) :
  (In (inferThemeFromKeywords text) Spec.seededThemes
   \/ inferThemeFromKeywords text = "General Feedback")
  /\ ~ In (inferThemeFromKeywords text)
         ["Regional Issues"; "Data Loss"; "Build/Deploy Issues"].
Proof.
  unfold inferThemeFromKeywords. cbv zeta.
  repeat match goal with
         | |- context [if ?b then _ else _] => destruct b
         end; (split; [simpl; tauto | simpl; intuition discriminate]).
Qed.

Example inferThemeFromKeywords_examples :
  inferThemeFromKeywords "We had data loss after the deploy" = "General Feedback"
  /\ inferThemeFromKeywords "Please add rate limit docs" = "API Rate Limits"
  /\ inferThemeFromKeywords "The news page is slow" = "Performance Issues"
  /\ inferThemeFromKeywords "Here are the news" = "WebSocket Support".
Proof. repeat split; reflexivity. Qed.

Lemma includes_trans (s a b : string) :
  includes s a = true -> includes a b = true -> includes s b = true.
Proof.
  intros H1 H2. apply includes_spec in H1. apply includes_spec in H2.
  destruct H1 as [x [y ->]]. destruct H2 as [u [v ->]].
  apply includes_spec. exists (x ++ u), (v ++ y).
  now rewrite !string_app_assoc.
Qed.

(** X13.  The two urgency heuristics agree on Critical in one direction: what
    ingestion calls Critical, the analysis fallback calls Critical too. *)
Theorem ingest_critical_is_fallback_critical (text : string) :
  DataCleaning.inferUrgencyFromText text = "Critical" ->
  inferUrgency text = "Critical".
Proof.
  unfold DataCleaning.inferUrgencyFromText. cbv zeta.
  destruct (includes (toLowerCase text) "urgent" || includes (toLowerCase text) "critical"
            || includes (toLowerCase text) "!!!" || includes (toLowerCase text) "outage"
            || includes (toLowerCase text) "production down") eqn:C.
  - intros _.
    assert (P : includes (toLowerCase text) "production down" = true ->
                includes (toLowerCase text) "production" = true)
      by (intros H; apply (includes_trans _ _ _ H); reflexivity).
    unfold inferUrgency, criticalWords. cbv zeta. cbn [existsb].
    destruct (includes (toLowerCase text) "urgent"); [reflexivity|].
    destruct (includes (toLowerCase text) "critical"); [reflexivity|].
    destruct (includes (toLowerCase text) "!!!");
      [now rewrite orb_true_r|].
    destruct (includes (toLowerCase text) "outage");
      [now rewrite !orb_true_r|].
    destruct (includes (toLowerCase text) "production down"); [|discriminate C].
    now rewrite (P eq_refl).
  - repeat match goal with
           | |- context [if ?b then _ else _] => destruct b
           end; discriminate.
Qed.

Lemma ingest_critical_example :
  inferUrgency "Production down since 9am" = "Critical".
Proof.
  apply ingest_critical_is_fallback_critical. reflexivity.
Defined.

(** The converse fails, and the two disagree below Critical. *)
Example urgency_heuristics_disagree :
  DataCleaning.inferUrgencyFromText "The build is broken" = "High"
  /\ inferUrgency "The build is broken" = "Critical"
  /\ DataCleaning.inferUrgencyFromText "I can't log in" = "High"
  /\ inferUrgency "I can't log in" = "Medium".
Proof. repeat split; reflexivity. Qed.

Lemma inferSentiment_sentiment (text : string) :
  In (inferSentiment text) Spec.sentiments.
Proof.
  unfold inferSentiment. cbv zeta.
  repeat match goal with
         | |- context [if ?b then _ else _] => destruct b
         end; simpl; tauto.
Qed.

Lemma inferUrgency_category (text : string) :
  In (inferUrgency text) Spec.urgencyCategories.
Proof.
  unfold inferUrgency. cbv zeta.
  repeat match goal with
         | |- context [if ?b then _ else _] => destruct b
         end; simpl; tauto.
Qed.

(** X14.  The keyword fallback always fits the columns of [sentiment_analysis]:
    a sentiment and an urgency the CHECK constraints accept, one theme, and
    a summary of at most 153 code units that ends in "...". *)
Theorem fallback_analysis_fits_schema (text : string) :
  In (sentiment (getFallbackAnalysis text)) Spec.sentiments
  /\ In (urgency (getFallbackAnalysis text)) Spec.urgencyCategories
  /\ length (themes (getFallbackAnalysis text)) = 1%nat
  /\ (String.length (summary (getFallbackAnalysis text)) <= 153)%nat
  /\ exists start, summary (getFallbackAnalysis text) = start ++ "..."
                   /\ exists rest, text = start ++ rest.
Proof.
  split; [apply inferSentiment_sentiment|].
  split; [apply inferUrgency_category|].
  split; [reflexivity|].
  split.
  - cbn [summary getFallbackAnalysis]. rewrite string_app_length, sliceTo_length.
    change (String.length "...") with 3%nat.
    pose proof (Nat.le_min_l 150 (String.length text)). lia.
  - exists (sliceTo 150 text). split; [reflexivity | apply sliceTo_prefix].
Qed.

End Heuristics.

(* ================================================================== *)
(** ** The AI adapter: partial failures and batches                    *)
(* ================================================================== *)

Section PartialFailures.
Import Js AiAgent.

Variable AiResponse : Type.
Variable run : AiRequest -> Completion AiResponse.
Variable parseAIResponse : AiResponse -> option Parsed.

(** X15.  A failure of the theme call does not touch the other call: the themes
    come from the keywords with confidence 0.5, and sentiment, urgency,
    summary and value score are the ones the service answered (each with
    its own default when the answer lacks it). *)
Theorem theme_failure_keeps_the_answer (text : string) (metadata : Metadata)
  (m : string) (response : AiResponse) (answer : Parsed) :
  run (ThemePrompt text) = Thrown m ->
  run (SentimentPrompt text metadata) = Returned response ->
  parseAIResponse response = Some answer ->
  analyzeFeedback AiResponse run parseAIResponse text metadata
  = Returned
      {| themes := [inferThemeFromKeywords text];
         sentiment := stringOr (p_sentiment answer) (inferSentiment text);
         urgency := stringOr (p_urgency answer) (inferUrgency text);
         summary := stringOr (p_summary answer) (sliceTo 100 text ++ "...");
         valueScore := numberOr (p_valueScore answer) 5%float;
         confidence := ((0.5 + numberOr (p_confidence answer) 0.7) / 2)%float |}.
Proof.
  intros H1 H2 H3.
  unfold analyzeFeedback, extractThemes, analyzeSentimentAndUrgency, readProperties.
  rewrite H1, H2. cbn [bind tryCatch]. rewrite H3. reflexivity.
Qed.

(** X16.  Replies that cannot be parsed (the empty object) give the keyword
    labels too, but with a summary of 100 code units, not 150, and with
    confidence 0.7, not 0.5. *)
Theorem unparsable_replies_give_defaults (text : string) (metadata : Metadata)
  (r1 r2 : AiResponse) :
  run (ThemePrompt text) = Returned r1 ->
  run (SentimentPrompt text metadata) = Returned r2 ->
  parseAIResponse r1 = Some Spec.emptyObject ->
  parseAIResponse r2 = Some Spec.emptyObject ->
  analyzeFeedback AiResponse run parseAIResponse text metadata
  = Returned
      {| themes := [inferThemeFromKeywords text];
         sentiment := inferSentiment text;
         urgency := inferUrgency text;
         summary := sliceTo 100 text ++ "...";
         valueScore := 5%float;
         confidence := 0.7%float |}.
Proof.
  intros H1 H2 H3 H4.
  unfold analyzeFeedback, extractThemes, analyzeSentimentAndUrgency, readProperties.
  rewrite H1, H2. cbn [bind tryCatch]. rewrite H3, H4. reflexivity.
Qed.

End PartialFailures.

Section PartialFailureExamples.
Import Js AiAgent.

Lemma theme_failure_example :
  analyzeFeedback Parsed
    (Spec.themeCallFails
       (mkParsed None (Some "Negative") None (Some "Checkout fails.") None (Some 0.9%float)))
    Some "Checkout is broken" (mkMetadata None None)
  = Returned
      {| themes := ["General Feedback"];
         sentiment := "Negative";
         urgency := "Critical";
         summary := "Checkout fails.";
         valueScore := 5%float;
         confidence := ((0.5 + 0.9) / 2)%float |}.
Proof.
  exact (theme_failure_keeps_the_answer Parsed
           (Spec.themeCallFails
              (mkParsed None (Some "Negative") None (Some "Checkout fails.") None
                 (Some 0.9%float)))
           Some "Checkout is broken" (mkMetadata None None) "429 Too Many Requests"
           _ _ eq_refl eq_refl eq_refl).
Defined.

Lemma unparsable_replies_example :
  analyzeFeedback unit (fun _ => Returned tt) (fun _ => Some Spec.emptyObject)
    "Checkout is broken" (mkMetadata None None)
  = Returned
      {| themes := ["General Feedback"];
         sentiment := "Negative";
         urgency := "Critical";
         summary := "Checkout is broken...";
         valueScore := 5%float;
         confidence := 0.7%float |}.
Proof.
  exact (unparsable_replies_give_defaults unit (fun _ => Returned tt)
           (fun _ => Some Spec.emptyObject) "Checkout is broken" (mkMetadata None None)
           tt tt eq_refl eq_refl eq_refl eq_refl).
Defined.

End PartialFailureExamples.

Section Batches.
Import Js AiAgent.

Variable AiResponse : Type.
Variable run : AiRequest -> Completion AiResponse.
Variable parseAIResponse : AiResponse -> option Parsed.

(** Each item's analysis returns, so a whole chunk does. *)
Lemma promiseAll_analyze (batch : list FeedbackItem) :
  exists results,
    promiseAll (map (analyzeItem AiResponse run parseAIResponse) batch) = Returned results
    /\ Forall2 (fun item r => analyzeItem AiResponse run parseAIResponse item = Returned r) batch results.
Proof.
  induction batch as [|item batch [results [E F]]].
  - exists []. split; [reflexivity | constructor].
  - destruct (analyzeFeedback_returns AiResponse run parseAIResponse (feedback_text item)
                {| m_customerTier := customer_tier item; m_source := source item |})
      as [r Hr].
    exists (r :: results). split.
    + cbn [map promiseAll]. unfold analyzeItem at 1. rewrite Hr. cbn [bind].
      rewrite E. reflexivity.
    + constructor; [exact Hr | exact F].
Qed.

Lemma loop_done (fuel : nat) (items : list FeedbackItem) (batchSize i : nat)
  (results : list AnalysisResult) (pauses : nat) :
  (length items <= i)%nat ->
  batchLoop AiResponse run parseAIResponse fuel items batchSize i results pauses = Some (Returned (results, pauses)).
Proof.
  intros H. destruct fuel; simpl;
    now replace (i <? length items)%nat with false by (symmetry; apply Nat.ltb_ge; lia).
Qed.

(** The loop from index [i]: with at least as much fuel as items left, it
    ends, appends one result per remaining item in order, and pauses once
    between two consecutive chunks. *)
Lemma loop_spec (items : list FeedbackItem) (batchSize : nat) :
  (1 <= batchSize)%nat ->
  forall fuel i results pauses,
    (i < length items)%nat ->
    (length items - i <= fuel)%nat ->
    exists rs extra,
      batchLoop AiResponse run parseAIResponse fuel items batchSize i results pauses
      = Some (Returned ((results ++ rs)%list, (pauses + extra)%nat))
      /\ Forall2 (fun item r => analyzeItem AiResponse run parseAIResponse item = Returned r) (skipn i items) rs
      /\ (extra * batchSize < length items - i <= (extra + 1) * batchSize)%nat.
Proof.
  intros Hb. induction fuel as [|fuel IH]; intros i results pauses Hi Hf; [lia|].
  cbn [batchLoop].
  replace (i <? length items)%nat with true by (symmetry; apply Nat.ltb_lt; lia).
  destruct (promiseAll_analyze (firstn batchSize (skipn i items))) as [batch [E F]].
  rewrite E.
  assert (Hsplit : skipn i items
              = (firstn batchSize (skipn i items) ++ skipn (i + batchSize) items)%list).
  { rewrite Nat.add_comm, <- skipn_skipn. symmetry. apply firstn_skipn. }
  destruct (Nat.ltb_spec (i + batchSize) (length items)) as [Hlt|Hge].
  - destruct (IH (i + batchSize)%nat (results ++ batch)%list (S pauses))
      as [rs [extra [L [G B]]]]; [lia | lia |].
    exists (batch ++ rs)%list, (S extra). split; [|split].
    + rewrite L, <- app_assoc.
      now replace (pauses + S extra)%nat with (S pauses + extra)%nat by lia.
    + rewrite Hsplit. now apply Forall2_app.
    + nia.
  - exists batch, O. rewrite loop_done by lia. split; [|split].
    + now rewrite Nat.add_0_r.
    + assert (Hrest : skipn (i + batchSize) items = []) by (apply skipn_all2; lia).
      now rewrite Hsplit, Hrest, app_nil_r.
    + lia.
Qed.

(** X17.  With a batch size of at least one, [batchAnalyzeFeedback] ends within
    as many turns as there are items, returns one analysis per item in the
    order of the items, and has paused exactly once between consecutive
    chunks. *)
Theorem batchAnalyzeFeedback_keeps_order (items : list FeedbackItem) (batchSize : nat) :
  (1 <= batchSize)%nat ->
  exists results pauses,
    batchAnalyzeFeedback AiResponse run parseAIResponse (length items) items batchSize
    = Some (Returned (results, pauses))
    /\ Forall2 (fun item r => analyzeItem AiResponse run parseAIResponse item = Returned r) items results
    /\ (items = [] -> pauses = O)
    /\ (items <> [] ->
        (pauses * batchSize < length items <= (pauses + 1) * batchSize)%nat).
Proof.
  intros Hb. unfold batchAnalyzeFeedback. destruct items as [|item items].
  - exists [], O. split; [reflexivity|]. split; [constructor|].
    split; [reflexivity | intros H; now elim H].
  - destruct (loop_spec (item :: items) batchSize Hb (length (item :: items)) 0 [] 0)
      as [rs [extra [L [F B]]]]; [simpl; lia | lia |].
    exists rs, extra. split; [exact L|]. split; [exact F|].
    split; [discriminate|]. intros _. rewrite Nat.sub_0_r in B. exact B.
Qed.

(** X18.  With a batch size of zero and at least one item the loop never ends:
    every turn analyses an empty chunk and leaves the index at 0. *)
Theorem batchAnalyzeFeedback_zero_batch_diverges (items : list FeedbackItem)
  (fuel : nat) :
  items <> [] ->
  batchAnalyzeFeedback AiResponse run parseAIResponse fuel items 0 = None.
Proof.
  intros Hne. unfold batchAnalyzeFeedback.
  assert (Hlen : (0 <? length items)%nat = true).
  { destruct items; [now elim Hne | reflexivity]. }
  assert (L : forall results pauses,
             batchLoop AiResponse run parseAIResponse fuel items 0 0 results pauses = None).
  { induction fuel as [|fuel IH]; intros results pauses; cbn [batchLoop]; rewrite Hlen;
      [reflexivity|].
    cbn [firstn map promiseAll Nat.add]. rewrite Hlen. apply IH. }
  apply L.
Qed.

End Batches.

Section BatchExamples.
Import Js AiAgent.

Lemma batch_order_example :
  exists results pauses,
    batchAnalyzeFeedback unit (fun _ => Thrown "429") (fun _ => None) 3
      [mkItem "a" None None; mkItem "b" None None; mkItem "c" None None] 2
    = Some (Returned (results, pauses))
    /\ Forall2 (fun item r =>
                  analyzeItem unit (fun _ => Thrown "429") (fun _ => None) item
                  = Returned r)
         [mkItem "a" None None; mkItem "b" None None; mkItem "c" None None] results
    /\ ([mkItem "a" None None; mkItem "b" None None; mkItem "c" None None] = [] ->
        pauses = O)
    /\ ([mkItem "a" None None; mkItem "b" None None; mkItem "c" None None] <> [] ->
        (pauses * 2 < 3 <= (pauses + 1) * 2)%nat).
Proof.
  apply (batchAnalyzeFeedback_keeps_order unit (fun _ => Thrown "429") (fun _ => None)
           [mkItem "a" None None; mkItem "b" None None; mkItem "c" None None] 2).
  lia.
Defined.

Lemma zero_batch_example :
  batchAnalyzeFeedback unit (fun _ => Thrown "429") (fun _ => None) 1000
    [mkItem "a" None None] 0
  = None.
Proof.
  apply batchAnalyzeFeedback_zero_batch_diverges. discriminate.
Defined.

Example batch_run :
  batchAnalyzeFeedback unit (fun _ => Thrown "429") (fun _ => None) 3
    [mkItem "love it" None None; mkItem "hate it" None None; mkItem "docs?" None None] 2
  = Some (Returned
            (map getFallbackAnalysis ["love it"; "hate it"; "docs?"], 1%nat)).
Proof. vm_compute. reflexivity. Qed.

End BatchExamples.

(* ================================================================== *)
(** ** The feedback listing endpoint                                   *)
(* ================================================================== *)

Section FeedbackEndpoint.
Import Js Worker.

Lemma addParam_spec (params : SearchParams) (name condition : string)
  (a : list string * list string) :
  addParam params name condition a
  = ((fst a ++ Spec.oneClause condition (Spec.present params name))%list,
     (snd a ++ Spec.presentValue params name)%list).
Proof.
  destruct a as [cs bs]. unfold addParam, Spec.oneClause, Spec.present,
    Spec.presentValue, Spec.valueOf.
  destruct (params name) as [v|]; simpl; rewrite ?app_nil_r; try reflexivity.
  destruct (v =? "")%string; simpl; rewrite ?app_nil_r; reflexivity.
Qed.

Lemma handleGetFeedbackQuery_spec (params : SearchParams) :
  handleGetFeedbackQuery params
  = ("SELECT * FROM v_feedback_full WHERE 1=1" ++ Spec.feedbackWhere params
     ++ " ORDER BY urgency_score DESC, created_date DESC LIMIT " ++ limitText params,
     Spec.feedbackBindings params).
Proof.
  unfold handleGetFeedbackQuery. cbv zeta. rewrite !addParam_spec. cbn [fst snd].
  change ([] ++ Spec.oneClause "source_name = ?" (Spec.present params "source"))%list
    with (Spec.oneClause "source_name = ?" (Spec.present params "source")).
  change ([] ++ Spec.presentValue params "source")%list
    with (Spec.presentValue params "source").
  rewrite <- !app_assoc.
  fold (Spec.feedbackClauses params). fold (Spec.feedbackBindings params).
  unfold Spec.feedbackWhere.
  destruct (Spec.feedbackClauses params) as [|c cs]; [reflexivity|].
  cbn [length]. change (0 <? S (length cs))%nat with true. cbv iota.
  now rewrite !string_app_assoc.
Qed.



(** With two filters the handler calls [bind] twice, each time with one
    value; the calls are recorded here in the order they are made. *)
Example handleGetFeedback_two_filters :
  handleGetFeedbackStatement (string * list (list string))
    (fun text => (text, []))
    (fun s values => (fst s, (snd s ++ [values])%list))
    (fun name => if (name =? "tier")%string then Some "Pro"
                 else if (name =? "source")%string then Some "Email" else None)
  = ("SELECT * FROM v_feedback_full WHERE 1=1 AND source_name = ? AND customer_tier = ?"
     ++ " ORDER BY urgency_score DESC, created_date DESC LIMIT 20",
     [["Email"]; ["Pro"]]).
Proof. reflexivity. Qed.

(** X20.  The limit is the exception: whatever non-empty text the URL gives as
    [limit] ends the statement as it is, unchecked. *)
Theorem handleGetFeedback_limit_is_raw (params : SearchParams) (limit : string) :
  params "limit" = Some limit ->
  limit <> "" ->
  fst (handleGetFeedbackQuery params)
  = "SELECT * FROM v_feedback_full WHERE 1=1" ++ Spec.feedbackWhere params
    ++ " ORDER BY urgency_score DESC, created_date DESC LIMIT " ++ limit.
Proof.
  intros H Hne. rewrite handleGetFeedbackQuery_spec. cbn [fst].
  unfold limitText. rewrite H. now rewrite (truthy_nonempty _ Hne).
Qed.

Lemma handleGetFeedback_limit_example :
  fst (handleGetFeedbackQuery (Spec.onlyLimit "1; DROP TABLE feedback_master"))
  = "SELECT * FROM v_feedback_full WHERE 1=1"
    ++ " ORDER BY urgency_score DESC, created_date DESC LIMIT 1; DROP TABLE feedback_master".
Proof.
  exact (handleGetFeedback_limit_is_raw (Spec.onlyLimit "1; DROP TABLE feedback_master")
           "1; DROP TABLE feedback_master" eq_refl ltac:(discriminate)).
Defined.

Example handleGetFeedback_default_limit :
  handleGetFeedbackQuery (fun name => if (name =? "tier")%string then Some "Pro" else None)
  = ("SELECT * FROM v_feedback_full WHERE 1=1 AND customer_tier = ?"
     ++ " ORDER BY urgency_score DESC, created_date DESC LIMIT 20", ["Pro"]).
Proof. reflexivity. Qed.

End FeedbackEndpoint.

(* ================================================================== *)
(** ** Letter case                                                     *)
(* ================================================================== *)

Section LetterCase.
Import Js.

Lemma truthy_toLowerCase (s : string) :
  truthy (Some (toLowerCase s)) = truthy (Some s).
Proof. destruct s; reflexivity. Qed.

(** X21.  The query parser, the urgency and tier normalisers and the keyword
    heuristics read their text through [toLowerCase] only: changing the
    case of letters changes none of their results. *)
Theorem keyword_matching_ignores_case (s : string) :
  SearchAgent.parseIntentWithKeywords (toLowerCase s)
  = SearchAgent.parseIntentWithKeywords s
  /\ DataCleaning.standardizeUrgency (Some (toLowerCase s))
     = DataCleaning.standardizeUrgency (Some s)
  /\ DataCleaning.standardizeTier (Some (toLowerCase s))
     = DataCleaning.standardizeTier (Some s)
  /\ DataCleaning.inferProductFromText (toLowerCase s)
     = DataCleaning.inferProductFromText s
  /\ DataCleaning.inferUrgencyFromText (toLowerCase s)
     = DataCleaning.inferUrgencyFromText s
  /\ AiAgent.inferThemeFromKeywords (toLowerCase s) = AiAgent.inferThemeFromKeywords s
  /\ AiAgent.inferSentiment (toLowerCase s) = AiAgent.inferSentiment s
  /\ AiAgent.inferUrgency (toLowerCase s) = AiAgent.inferUrgency s.
Proof.
  unfold SearchAgent.parseIntentWithKeywords, DataCleaning.standardizeUrgency,
    DataCleaning.standardizeTier, DataCleaning.inferProductFromText,
    DataCleaning.inferUrgencyFromText, AiAgent.inferThemeFromKeywords,
    AiAgent.inferSentiment, AiAgent.inferUrgency.
  rewrite truthy_toLowerCase, !toLowerCase_idempotent.
  repeat split; reflexivity.
Qed.

(** The tier of a GitHub author is the exception: it is matched as typed. *)
Example inferTierFromAuthor_is_case_sensitive :
  DataCleaning.inferTierFromAuthor (Some "acme-corp-bot") = "Enterprise"
  /\ DataCleaning.inferTierFromAuthor (Some "Acme-Corp-Bot") = "Free".
Proof. split; reflexivity. Qed.

End LetterCase.
